(** * vfkit device configuration: [pkg/config/virtio.go]

    A shallow embedding of the device model of [pkg/config/virtio.go]
    (option tokenizer, dispatcher, and the per-device [FromOptions] /
    [ToCmdLine] pair), followed by the properties proved about it.

    Conventions of the embedding.
    - A Go [string] is a sequence of bytes: [String.string].
    - Go's [int], [uint] and [uintptr] are 64-bit; they are modelled as [Z]
      with the conversions' wrap-around written out ([uint64_of_int],
      [int_of_uint64]).
    - A method with a pointer receiver that mutates its receiver and
      returns an [error] is a function from the receiver's value to the
      pair (receiver after the call, error or nil).  The receiver after a
      failed call is the partially updated one, as in Go.
    - A Go result [(v, err)] is a pair whose second component is
      [option error] ([None] is [nil]).  A nil slice and an empty slice
      are both the empty list.
    - Slice indexing can panic; functions that index are written in the
      [outcome] monad, whose [Panics] result is a run-time panic. *)

From Stdlib Require Import ZArith List String Ascii Bool Lia DecimalString DecimalPos.
Import ListNotations.

Local Open Scope list_scope.
Local Open Scope string_scope.

(** ** Outcomes: a call returns or panics *)

Inductive outcome (A : Type) : Type :=
| Returns (a : A)
| Panics.

Arguments Returns {A} a.
Arguments Panics {A}.

Definition bind {A B : Type} (m : outcome A) (k : A -> outcome B) : outcome B :=
  match m with
  | Returns a => k a
  | Panics => Panics
  end.

Notation "x <- m ;; k" := (bind m (fun x => k))
  (at level 61, m at next level, right associativity).

(** [s[i]] on a slice: panics when [i] is out of range. *)
Definition index {A : Type} (s : list A) (i : nat) : outcome A :=
  match nth_error s i with
  | Some a => Returns a
  | None => Panics
  end.

(** [s[i:]] on a slice: panics when [i > len(s)]. *)
Definition sliceFrom {A : Type} (s : list A) (i : nat) : outcome (list A) :=
  if (i <=? List.length s)%nat then Returns (skipn i s) else Panics.

(** ** Go errors *)

(** The error values that reach this file: the ones built by [fmt.Errorf]
    (a formatted message), [*strconv.NumError] and [*net.AddrError]. *)
Inductive error : Type :=
| errorString (msg : string)
| NumError (Func Num Err : string)
| AddrError (Err Addr : string).

(** ** 64-bit machine integers *)

Definition two64 : Z := 2 ^ 64.
Definition maxInt : Z := 2 ^ 63 - 1.
Definition minInt : Z := - 2 ^ 63.

(** [uint(i)] and [uintptr(i)] for an [int] [i]. *)
Definition uint64_of_int (i : Z) : Z := i mod two64.

(** [int(u)] for a [uint] or [uintptr] [u]. *)
Definition int_of_uint64 (u : Z) : Z :=
  if (u <=? maxInt)%Z then u else (u - two64)%Z.

(** ** The parts of Go's standard library the file calls *)

Module fmt.

Definition Errorf (msg : string) : error := errorString msg.

(** The verb [%d] on an integer. *)
Definition d (z : Z) : string := NilEmpty.string_of_int (Z.to_int z).

End fmt.

Module strings.

(** [Index(s, sep)] for a one-byte [sep], together with the two slices
    [s[:m]] and [s[m+1:]] that [genSplit] takes around it. *)
Fixpoint cut (s : string) (sep : ascii) : option (string * string) :=
  match s with
  | EmptyString => None
  | String c r =>
      if Ascii.eqb c sep then Some (EmptyString, r)
      else match cut r sep with
           | Some (a, b) => Some (String c a, b)
           | None => None
           end
  end.

(** [genSplit(s, sep, 0, n)] for a one-byte [sep] and [n >= 0]: at most
    [n] pieces, the last one holding the unsplit rest. *)
Fixpoint SplitN (s : string) (sep : ascii) (n : nat) : list string :=
  match n with
  | O => []
  | S O => [s]
  | S n' =>
      match cut s sep with
      | None => [s]
      | Some (a, b) => a :: SplitN b sep n'
      end
  end.

(** [Split(s, sep)] is [genSplit(s, sep, 0, -1)]: the piece count is
    [Count(s, sep) + 1], which never exceeds [len(s) + 1]. *)
Definition Split (s : string) (sep : ascii) : list string :=
  SplitN s sep (S (String.length s)).

End strings.

Module strconv.

Definition isDigit (c : ascii) : bool :=
  ((48 <=? nat_of_ascii c) && (nat_of_ascii c <=? 57))%nat.

Fixpoint digits (acc : Z) (s : string) : option Z :=
  match s with
  | EmptyString => Some acc
  | String c r =>
      if isDigit c
      then digits (acc * 10 + Z.of_nat (nat_of_ascii c - 48)) r
      else None
  end.

(** [Atoi(s)]: an optional sign followed by one or more decimal digits,
    the value within the range of [int]; anything else is a
    [*NumError] (syntax or range). *)
Definition Atoi (s : string) : Z * option error :=
  let syntax := (0%Z, Some (NumError "Atoi" s "invalid syntax")) in
  match s with
  | EmptyString => syntax
  | String c r =>
      let neg := Ascii.eqb c "-" in
      let body := if neg || Ascii.eqb c "+" then r else s in
      match body with
      | EmptyString => syntax
      | _ =>
          match digits 0 body with
          | None => syntax
          | Some n =>
              let v := if neg then (- n)%Z else n in
              if (v <? minInt)%Z
              then (minInt, Some (NumError "Atoi" s "value out of range"))
              else if (maxInt <? v)%Z
              then (maxInt, Some (NumError "Atoi" s "value out of range"))
              else (v, None)
          end
      end
  end.

End strconv.

Module os.

(** [*os.File]: the descriptor and the name given to [NewFile].  A nil
    pointer is [None]. *)
Record File : Type := { Sysfd : Z; name : string }.

(** [NewFile(fd, name)] on Unix: nil when [int(fd)] is negative, and a
    file for that descriptor otherwise (whether the descriptor is open
    is not checked). *)
Definition NewFile (fd : Z) (name : string) : option File :=
  let fdi := int_of_uint64 fd in
  if (fdi <? 0)%Z then None else Some {| Sysfd := fdi; name := name |}.

(** [f.Fd()]: the descriptor as a [uintptr]; all ones on a nil file. *)
Definition Fd (f : option File) : Z :=
  match f with
  | None => (two64 - 1)%Z
  | Some f => uint64_of_int (Sysfd f)
  end.

End os.

Module net.

(** [net.HardwareAddr] is [[]byte]. *)
Definition HardwareAddr : Type := list Z.

Definition big : Z := 16777215.

Definition hexVal (c : ascii) : option Z :=
  let n := Z.of_nat (nat_of_ascii c) in
  if ((48 <=? n) && (n <=? 57))%Z then Some (n - 48)%Z
  else if ((97 <=? n) && (n <=? 102))%Z then Some (n - 97 + 10)%Z
  else if ((65 <=? n) && (n <=? 70))%Z then Some (n - 65 + 10)%Z
  else None.

(** [xtoi(s)]: number, characters consumed, success; [n] and [i] are
    the loop's running values. *)
Fixpoint xtoi_from (s : string) (n : Z) (i : nat) : Z * nat * bool :=
  let stop := if (i =? 0)%nat then (0%Z, i, false) else (n, i, true) in
  match s with
  | EmptyString => stop
  | String c r =>
      match hexVal c with
      | Some v =>
          let n' := (n * 16 + v)%Z in
          if (big <=? n')%Z then (0%Z, i, false) else xtoi_from r n' (S i)
      | None => stop
      end
  end.

Definition xtoi (s : string) : Z * nat * bool := xtoi_from s 0%Z O.

Definition drop (n : nat) (s : string) : string :=
  String.substring n (String.length s - n) s.

(** [s[i]], for an [i] the caller has checked to be in range. *)
Definition at_ (s : string) (i : nat) : ascii :=
  match String.get i s with
  | Some c => c
  | None => Ascii.zero
  end.

(** [xtoi2(s, e)]: the next two hex digits of [s] as a byte; when [s]
    is longer than two bytes the third one must be [e]. *)
Definition xtoi2 (s : string) (e : ascii) : Z * bool :=
  if (2 <? String.length s)%nat && negb (Ascii.eqb (at_ s 2) e)
  then (0%Z, false)
  else
    let '(n, ei, ok) := xtoi (String.substring 0 2 s) in
    ((n mod 256)%Z, ok && (ei =? 2)%nat).

(** The loop of the [:] / [-] form: [n] groups, three bytes apart. *)
Fixpoint groups3 (s : string) (e : ascii) (n : nat) : option HardwareAddr :=
  match n with
  | O => Some []
  | S n' =>
      match xtoi2 s e with
      | (b, true) =>
          match groups3 (drop 3 s) e n' with
          | Some hw => Some (b :: hw)
          | None => None
          end
      | (_, false) => None
      end
  end.

(** The loop of the dotted form: [n] groups of two bytes, five apart. *)
Fixpoint groups5 (s : string) (e : ascii) (n : nat) : option HardwareAddr :=
  match n with
  | O => Some []
  | S n' =>
      match xtoi2 (String.substring 0 2 s) Ascii.zero, xtoi2 (drop 2 s) e with
      | (b1, true), (b2, true) =>
          match groups5 (drop 5 s) e n' with
          | Some hw => Some (b1 :: b2 :: hw)
          | None => None
          end
      | _, _ => None
      end
  end.

(** [ParseMAC(s)]: 6, 8 or 20 bytes written [xx:xx:...], [xx-xx-...]
    or [xxxx.xxxx. ...]; anything else is an [*AddrError]. *)
Definition ParseMAC (s : string) : HardwareAddr * option error :=
  let bad := ([], Some (AddrError "invalid MAC address" s)) in
  let len := String.length s in
  if (len <? 14)%nat then bad
  else if Ascii.eqb (at_ s 2) ":" || Ascii.eqb (at_ s 2) "-" then
    if negb (((len + 1) mod 3) =? 0)%nat then bad
    else
      let n := ((len + 1) / 3)%nat in
      if negb ((n =? 6) || (n =? 8) || (n =? 20))%nat then bad
      else match groups3 s (at_ s 2) n with
           | Some hw => (hw, None)
           | None => bad
           end
  else if Ascii.eqb (at_ s 4) "." then
    if negb (((len + 1) mod 5) =? 0)%nat then bad
    else
      let n := (2 * (len + 1) / 5)%nat in
      if negb ((n =? 6) || (n =? 8) || (n =? 20))%nat then bad
      else match groups5 s (at_ s 4) (n / 2) with
           | Some hw => (hw, None)
           | None => bad
           end
  else bad.

Definition hexDigit : string := "0123456789abcdef".

(** [a.String()]: two lower-case hex digits per byte, joined by [:]. *)
Fixpoint hwString (first : bool) (a : HardwareAddr) : string :=
  match a with
  | [] => ""
  | b :: r =>
      (if first then "" else ":")
      ++ String (at_ hexDigit (Z.to_nat (Z.shiftr b 4)))
           (String (at_ hexDigit (Z.to_nat (Z.land b 15))) "")
      ++ hwString false r
  end.

Definition String_ (a : HardwareAddr) : string := hwString true a.

End net.

(** ** The data model *)

Record VirtioVsock : Type := {
  Port : Z;
  SocketURL : string;
  Listen : bool
}.

Record StorageConfig : Type := {
  DevName : string;
  ImagePath : string;
  ReadOnly : bool
}.

Record VirtioBlk : Type := {
  BlkStorageConfig : StorageConfig;
  DeviceIdentifier : string
}.

Record VirtioFs : Type := {
  SharedDir : string;
  MountTag : string
}.

Record VirtioRng : Type := { }.

Record VirtioNet : Type := {
  Nat : bool;
  MacAddress : net.HardwareAddr;
  Socket : option os.File
}.

Record VirtioSerial : Type := {
  LogFile : string
}.

Record USBMassStorage : Type := {
  UsbStorageConfig : StorageConfig
}.

Record Option : Type := {
  key : string;
  value : string
}.

(** Modelled from the spec: the [VMComponent] interface, which
    [VirtioDevice] names and which is declared outside [virtio.go]; the
    spec's device contract gives it the two operations every device in
    this file implements. *)
Class VMComponent (T : Type) : Type := {
  FromOptions : T -> list Option -> T * option error;
  ToCmdLine : T -> list string * option error
}.

(** ** Loops over the options *)

(** [for _, option := range options { body }] where [body] updates the
    state and either falls through to the next option or returns an
    error: the state when the loop ends, and the error that ended it. *)
Fixpoint forRange {T : Type} (body : T -> Option -> T * option error)
  (state : T) (options : list Option) : T * option error :=
  match options with
  | [] => (state, None)
  | opt :: rest =>
      match body state opt with
      | (state', None) => forRange body state' rest
      | (state', Some err) => (state', Some err)
      end
  end.

(** ** The tokenizer *)

Definition strToOption (str : string) : outcome Option :=
  let splitStr := strings.SplitN str "=" 2 in
  k <- index splitStr 0 ;;
  let opt := {| key := k; value := "" |} in
  if (1 <? List.length splitStr)%nat
  then v <- index splitStr 1 ;; Returns {| key := key opt; value := v |}
  else Returns opt.

Fixpoint strvToOptions_range (parsedOpts : list Option) (opts : list string)
  : outcome (list Option) :=
  match opts with
  | [] => Returns parsedOpts
  | opt :: rest =>
      if (String.length opt =? 0)%nat then strvToOptions_range parsedOpts rest
      else o <- strToOption opt ;; strvToOptions_range (parsedOpts ++ [o])%list rest
  end.

Definition strvToOptions (opts : list string) : outcome (list Option) :=
  strvToOptions_range [] opts.

(** ** virtio-serial *)

Definition VirtioSerialNew (logFilePath : string) : VirtioSerial * option error :=
  ({| LogFile := logFilePath |}, None).

Definition VirtioSerial_ToCmdLine (dev : VirtioSerial) : list string * option error :=
  if String.eqb (LogFile dev) ""
  then ([], Some (fmt.Errorf "virtio-serial needs the path to the log file"))
  else (["--device"; "virtio-serial,logFilePath=" ++ LogFile dev], None).

(** The [switch] in the loop of [FromOptions]. *)
Definition VirtioSerial_case (dev : VirtioSerial) (opt : Option)
  : VirtioSerial * option error :=
  if String.eqb (key opt) "logFilePath"
  then ({| LogFile := value opt |}, None)
  else (dev, Some (fmt.Errorf
                     ("Unknown option for virtio-serial devices: " ++ key opt))).

Definition VirtioSerial_FromOptions (dev : VirtioSerial) (options : list Option)
  : VirtioSerial * option error :=
  forRange VirtioSerial_case dev options.

(** ** virtio-net *)

Definition VirtioNetNew (macAddress : string) : option VirtioNet * option error :=
  let '(hwAddr, err) :=
    if negb (String.eqb macAddress "") then net.ParseMAC macAddress
    else ([], None) in
  match err with
  | Some e => (None, Some e)
  | None => (Some {| Nat := true; MacAddress := hwAddr; Socket := None |}, None)
  end.

Definition SetSocket (dev : VirtioNet) (file : option os.File) : VirtioNet :=
  {| Nat := false; MacAddress := MacAddress dev; Socket := file |}.

Definition isNil {A : Type} (p : option A) : bool :=
  match p with
  | None => true
  | Some _ => false
  end.

Definition validate (dev : VirtioNet) : option error :=
  if Nat dev && negb (isNil (Socket dev))
  then Some (fmt.Errorf "'nat' and 'fd' cannot be set at the same time")
  else if negb (Nat dev) && isNil (Socket dev)
  then Some (fmt.Errorf "One of 'nat' or 'fd' must be set")
  else None.

Definition VirtioNet_ToCmdLine (dev : VirtioNet) : list string * option error :=
  match validate dev with
  | Some err => ([], Some err)
  | None =>
      let builder := "virtio-net" in
      let builder :=
        if Nat dev then builder ++ ",nat"
        else builder ++ ",fd=" ++ fmt.d (os.Fd (Socket dev)) in
      let builder :=
        if negb (List.length (MacAddress dev) =? 0)%nat
        then builder ++ ",mac=" ++ net.String_ (MacAddress dev)
        else builder in
      (["--device"; builder], None)
  end.

(** The [switch] in the loop of [FromOptions]. *)
Definition VirtioNet_case (dev : VirtioNet) (opt : Option)
  : VirtioNet * option error :=
  if String.eqb (key opt) "nat" then
    if negb (String.eqb (value opt) "")
    then (dev, Some (fmt.Errorf
                       ("Unexpected value for virtio-net 'nat' option: "
                          ++ value opt)))
    else ({| Nat := true; MacAddress := MacAddress dev; Socket := Socket dev |}, None)
  else if String.eqb (key opt) "mac" then
    match net.ParseMAC (value opt) with
    | (_, Some err) => (dev, Some err)
    | (macAddress, None) =>
        ({| Nat := Nat dev; MacAddress := macAddress; Socket := Socket dev |}, None)
    end
  else if String.eqb (key opt) "fd" then
    match strconv.Atoi (value opt) with
    | (_, Some err) => (dev, Some err)
    | (fd, None) =>
        ({| Nat := Nat dev; MacAddress := MacAddress dev;
            Socket := os.NewFile (uint64_of_int fd) "vfkit virtio-net socket" |},
         None)
    end
  else (dev, Some (fmt.Errorf
                     ("Unknown option for virtio-net devices: " ++ key opt))).

Definition VirtioNet_FromOptions (dev : VirtioNet) (options : list Option)
  : VirtioNet * option error :=
  match forRange VirtioNet_case dev options with
  | (dev', Some err) => (dev', Some err)
  | (dev', None) => (dev', validate dev')
  end.

(** ** virtio-rng *)

Definition VirtioRngNew : VirtioRng * option error := (Build_VirtioRng, None).

Definition VirtioRng_ToCmdLine (dev : VirtioRng) : list string * option error :=
  (["--device"; "virtio-rng"], None).

(** [%s] on a [[]option]: the structs in braces, fields and elements
    separated by spaces, the whole in brackets. *)
Fixpoint formatOptions (first : bool) (options : list Option) : string :=
  match options with
  | [] => ""
  | o :: rest =>
      (if first then "" else " ") ++ "{" ++ key o ++ " " ++ value o ++ "}"
      ++ formatOptions false rest
  end.

Definition VirtioRng_FromOptions (dev : VirtioRng) (options : list Option)
  : VirtioRng * option error :=
  if negb (List.length options =? 0)%nat
  then (dev, Some (fmt.Errorf
                     ("Unknown options for virtio-rng devices: "
                        ++ "[" ++ formatOptions true options ++ "]")))
  else (dev, None).

(** ** StorageConfig, shared by virtio-blk and usb-mass-storage *)

Definition StorageConfig_ToCmdLine (config : StorageConfig) : list string * option error :=
  if String.eqb (ImagePath config) ""
  then ([], Some (fmt.Errorf
                    (DevName config ++ " devices need the path to a disk image")))
  else (["--device"; DevName config ++ ",path=" ++ ImagePath config], None).

(** The [switch] in the loop of [FromOptions]. *)
Definition StorageConfig_case (config : StorageConfig) (opt : Option)
  : StorageConfig * option error :=
  if String.eqb (key opt) "path"
  then ({| DevName := DevName config; ImagePath := value opt;
           ReadOnly := ReadOnly config |}, None)
  else (config, Some (fmt.Errorf
                        ("Unknown option for " ++ DevName config ++ " devices: "
                           ++ key opt))).

Definition StorageConfig_FromOptions (config : StorageConfig) (options : list Option)
  : StorageConfig * option error :=
  forRange StorageConfig_case config options.

(** ** virtio-blk *)

Definition virtioBlkNewEmpty : VirtioBlk :=
  {| BlkStorageConfig := {| DevName := "virtio-blk"; ImagePath := ""; ReadOnly := false |};
     DeviceIdentifier := "" |}.

Definition VirtioBlkNew (imagePath : string) : VirtioBlk * option error :=
  let virtioBlk := virtioBlkNewEmpty in
  ({| BlkStorageConfig :=
        {| DevName := DevName (BlkStorageConfig virtioBlk); ImagePath := imagePath;
           ReadOnly := ReadOnly (BlkStorageConfig virtioBlk) |};
      DeviceIdentifier := DeviceIdentifier virtioBlk |}, None).

Definition SetDeviceIdentifier (dev : VirtioBlk) (devId : string) : VirtioBlk :=
  {| BlkStorageConfig := BlkStorageConfig dev; DeviceIdentifier := devId |}.

(** The [switch] in the loop of [FromOptions]; the loop's state is the
    device and [unhandledOpts]. *)
Definition VirtioBlk_case (state : VirtioBlk * list Option) (opt : Option)
  : (VirtioBlk * list Option) * option error :=
  let '(dev, unhandledOpts) := state in
  if String.eqb (key opt) "deviceId"
  then ((SetDeviceIdentifier dev (value opt), unhandledOpts), None)
  else ((dev, (unhandledOpts ++ [opt])%list), None).

Definition VirtioBlk_FromOptions (dev : VirtioBlk) (options : list Option)
  : VirtioBlk * option error :=
  let '(dev, unhandledOpts) := fst (forRange VirtioBlk_case (dev, []) options) in
  let '(config, err) := StorageConfig_FromOptions (BlkStorageConfig dev) unhandledOpts in
  ({| BlkStorageConfig := config; DeviceIdentifier := DeviceIdentifier dev |}, err).

(** [s[i] = a], for an [i] the caller has checked to be in range. *)
Fixpoint assign {A : Type} (s : list A) (i : nat) (a : A) : list A :=
  match s, i with
  | [], _ => []
  | _ :: r, O => a :: r
  | x :: r, S i' => x :: assign r i' a
  end.

Definition VirtioBlk_ToCmdLine (dev : VirtioBlk) : list string * option error :=
  match StorageConfig_ToCmdLine (BlkStorageConfig dev) with
  | (_, Some err) => ([], Some err)
  | (cmdLine, None) =>
      if negb (List.length cmdLine =? 2)%nat
      then ([], Some (fmt.Errorf "Unexpected storage config commandline"))
      else if negb (String.eqb (DeviceIdentifier dev) "")
      then (assign cmdLine 1
              (nth 1 cmdLine "" ++ ",deviceId=" ++ DeviceIdentifier dev), None)
      else (cmdLine, None)
  end.

(** ** virtio-vsock *)

Definition VirtioVsockNew (port : Z) (socketURL : string) (listen : bool)
  : VirtioVsock * option error :=
  ({| Port := port; SocketURL := socketURL; Listen := listen |}, None).

Definition VirtioVsock_ToCmdLine (dev : VirtioVsock) : list string * option error :=
  if (Port dev =? 0)%Z || String.eqb (SocketURL dev) ""
  then ([], Some (fmt.Errorf "virtio-vsock needs both a port and a socket URL"))
  else
    let listenStr := if Listen dev then "listen" else "connect" in
    (["--device";
      "virtio-vsock,port=" ++ fmt.d (Port dev) ++ ",socketURL=" ++ SocketURL dev
        ++ "," ++ listenStr], None).

(** The [switch] in the loop of [FromOptions]. *)
Definition VirtioVsock_case (dev : VirtioVsock) (opt : Option)
  : VirtioVsock * option error :=
  if String.eqb (key opt) "socketURL" then
    ({| Port := Port dev; SocketURL := value opt; Listen := Listen dev |}, None)
  else if String.eqb (key opt) "port" then
    match strconv.Atoi (value opt) with
    | (_, Some err) => (dev, Some err)
    | (port, None) =>
        ({| Port := uint64_of_int port; SocketURL := SocketURL dev;
            Listen := Listen dev |}, None)
    end
  else if String.eqb (key opt) "listen" then
    ({| Port := Port dev; SocketURL := SocketURL dev; Listen := true |}, None)
  else if String.eqb (key opt) "connect" then
    ({| Port := Port dev; SocketURL := SocketURL dev; Listen := false |}, None)
  else (dev, Some (fmt.Errorf
                     ("Unknown option for virtio-vsock devices: " ++ key opt))).

Definition VirtioVsock_FromOptions (dev : VirtioVsock) (options : list Option)
  : VirtioVsock * option error :=
  let dev := {| Port := Port dev; SocketURL := SocketURL dev; Listen := true |} in
  forRange VirtioVsock_case dev options.

(** ** virtio-fs *)

Definition VirtioFsNew (sharedDir mountTag : string) : VirtioFs * option error :=
  ({| SharedDir := sharedDir; MountTag := mountTag |}, None).

Definition VirtioFs_ToCmdLine (dev : VirtioFs) : list string * option error :=
  if String.eqb (SharedDir dev) ""
  then ([], Some (fmt.Errorf "virtio-fs needs the path to the directory to share"))
  else if negb (String.eqb (MountTag dev) "")
  then (["--device";
         "virtio-fs,sharedDir=" ++ SharedDir dev ++ ",mountTag=" ++ MountTag dev], None)
  else (["--device"; "virtio-fs,sharedDir=" ++ SharedDir dev], None).

(** The [switch] in the loop of [FromOptions]. *)
Definition VirtioFs_case (dev : VirtioFs) (opt : Option)
  : VirtioFs * option error :=
  if String.eqb (key opt) "sharedDir"
  then ({| SharedDir := value opt; MountTag := MountTag dev |}, None)
  else if String.eqb (key opt) "mountTag"
  then ({| SharedDir := SharedDir dev; MountTag := value opt |}, None)
  else (dev, Some (fmt.Errorf
                     ("Unknown option for virtio-fs devices: " ++ key opt))).

Definition VirtioFs_FromOptions (dev : VirtioFs) (options : list Option)
  : VirtioFs * option error :=
  forRange VirtioFs_case dev options.

(** ** usb-mass-storage *)

Definition usbMassStorageNewEmpty : USBMassStorage :=
  {| UsbStorageConfig :=
       {| DevName := "usb-mass-storage"; ImagePath := ""; ReadOnly := false |} |}.

Definition USBMassStorageNew (imagePath : string) : USBMassStorage * option error :=
  let usbMassStorage := usbMassStorageNewEmpty in
  ({| UsbStorageConfig :=
        {| DevName := DevName (UsbStorageConfig usbMassStorage);
           ImagePath := imagePath;
           ReadOnly := ReadOnly (UsbStorageConfig usbMassStorage) |} |}, None).

(** The methods [USBMassStorage] gets from its embedded [StorageConfig]. *)
Definition USBMassStorage_ToCmdLine (dev : USBMassStorage) : list string * option error :=
  StorageConfig_ToCmdLine (UsbStorageConfig dev).

Definition USBMassStorage_FromOptions (dev : USBMassStorage) (options : list Option)
  : USBMassStorage * option error :=
  let '(config, err) := StorageConfig_FromOptions (UsbStorageConfig dev) options in
  ({| UsbStorageConfig := config |}, err).

(** ** The device interface and the dispatcher *)

#[export] Instance VirtioSerial_VMComponent : VMComponent VirtioSerial :=
  {| FromOptions := VirtioSerial_FromOptions; ToCmdLine := VirtioSerial_ToCmdLine |}.
#[export] Instance VirtioNet_VMComponent : VMComponent VirtioNet :=
  {| FromOptions := VirtioNet_FromOptions; ToCmdLine := VirtioNet_ToCmdLine |}.
#[export] Instance VirtioRng_VMComponent : VMComponent VirtioRng :=
  {| FromOptions := VirtioRng_FromOptions; ToCmdLine := VirtioRng_ToCmdLine |}.
#[export] Instance VirtioBlk_VMComponent : VMComponent VirtioBlk :=
  {| FromOptions := VirtioBlk_FromOptions; ToCmdLine := VirtioBlk_ToCmdLine |}.
#[export] Instance VirtioVsock_VMComponent : VMComponent VirtioVsock :=
  {| FromOptions := VirtioVsock_FromOptions; ToCmdLine := VirtioVsock_ToCmdLine |}.
#[export] Instance VirtioFs_VMComponent : VMComponent VirtioFs :=
  {| FromOptions := VirtioFs_FromOptions; ToCmdLine := VirtioFs_ToCmdLine |}.
#[export] Instance USBMassStorage_VMComponent : VMComponent USBMassStorage :=
  {| FromOptions := USBMassStorage_FromOptions; ToCmdLine := USBMassStorage_ToCmdLine |}.

(** A [VirtioDevice] value: one of the seven pointer types of this file
    behind the interface. *)
Inductive VirtioDevice : Type :=
| OfVirtioBlk (dev : VirtioBlk)
| OfVirtioFs (dev : VirtioFs)
| OfVirtioNet (dev : VirtioNet)
| OfVirtioRng (dev : VirtioRng)
| OfVirtioSerial (dev : VirtioSerial)
| OfVirtioVsock (dev : VirtioVsock)
| OfUSBMassStorage (dev : USBMassStorage).

Definition lift {T : Type} (inj : T -> VirtioDevice) (r : T * option error)
  : VirtioDevice * option error :=
  (inj (fst r), snd r).

(** Method calls through the interface. *)
#[export] Instance VirtioDevice_VMComponent : VMComponent VirtioDevice :=
  {| FromOptions dev options :=
       match dev with
       | OfVirtioBlk d => lift OfVirtioBlk (FromOptions d options)
       | OfVirtioFs d => lift OfVirtioFs (FromOptions d options)
       | OfVirtioNet d => lift OfVirtioNet (FromOptions d options)
       | OfVirtioRng d => lift OfVirtioRng (FromOptions d options)
       | OfVirtioSerial d => lift OfVirtioSerial (FromOptions d options)
       | OfVirtioVsock d => lift OfVirtioVsock (FromOptions d options)
       | OfUSBMassStorage d => lift OfUSBMassStorage (FromOptions d options)
       end;
     ToCmdLine dev :=
       match dev with
       | OfVirtioBlk d => ToCmdLine d
       | OfVirtioFs d => ToCmdLine d
       | OfVirtioNet d => ToCmdLine d
       | OfVirtioRng d => ToCmdLine d
       | OfVirtioSerial d => ToCmdLine d
       | OfVirtioVsock d => ToCmdLine d
       | OfUSBMassStorage d => ToCmdLine d
       end |}.

Definition deviceFromCmdLine (deviceOpts : string)
  : outcome (option VirtioDevice * option error) :=
  let opts := strings.Split deviceOpts "," in
  if (List.length opts =? 0)%nat
  then Returns (None, Some (fmt.Errorf "empty option list in command line argument"))
  else
    tag <- index opts 0 ;;
    let dev :=
      if String.eqb tag "virtio-blk" then Some (OfVirtioBlk virtioBlkNewEmpty)
      else if String.eqb tag "virtio-fs"
      then Some (OfVirtioFs {| SharedDir := ""; MountTag := "" |})
      else if String.eqb tag "virtio-net"
      then Some (OfVirtioNet {| Nat := false; MacAddress := []; Socket := None |})
      else if String.eqb tag "virtio-rng" then Some (OfVirtioRng Build_VirtioRng)
      else if String.eqb tag "virtio-serial"
      then Some (OfVirtioSerial {| LogFile := "" |})
      else if String.eqb tag "virtio-vsock"
      then Some (OfVirtioVsock {| Port := 0; SocketURL := ""; Listen := false |})
      else if String.eqb tag "usb-mass-storage"
      then Some (OfUSBMassStorage usbMassStorageNewEmpty)
      else None in
    match dev with
    | None => Returns (None, Some (fmt.Errorf ("unknown device type: " ++ tag)))
    | Some dev =>
        rest <- sliceFrom opts 1 ;;
        parsedOpts <- strvToOptions rest ;;
        match FromOptions dev parsedOpts with
        | (_, Some err) => Returns (None, Some err)
        | (dev, None) => Returns (Some dev, None)
        end
    end.

(** ** Vocabulary of the statements *)

(** [c] occurs in [s]. *)
Fixpoint hasByte (c : ascii) (s : string) : bool :=
  match s with
  | EmptyString => false
  | String x r => Ascii.eqb x c || hasByte c r
  end.

(** Every byte of [s] is a decimal digit. *)
Fixpoint allDigits (s : string) : bool :=
  match s with
  | EmptyString => true
  | String c r => strconv.isDigit c && allDigits r
  end.

(** The [case] labels of each [FromOptions]. *)
Definition VirtioSerial_keys : list string := ["logFilePath"].
Definition VirtioNet_keys : list string := ["nat"; "mac"; "fd"].
Definition StorageConfig_keys : list string := ["path"].
Definition VirtioBlk_keys : list string := ["deviceId"; "path"].
Definition VirtioVsock_keys : list string := ["socketURL"; "port"; "listen"; "connect"].
Definition VirtioFs_keys : list string := ["sharedDir"; "mountTag"].

(** The [case] labels of the dispatcher. *)
Definition deviceTags : list string :=
  ["virtio-blk"; "virtio-fs"; "virtio-net"; "virtio-rng"; "virtio-serial";
   "virtio-vsock"; "usb-mass-storage"].

(** The error of the dispatcher's first test. *)
Definition emptyOptionList : error :=
  fmt.Errorf "empty option list in command line argument".

Definition known (keys : list string) (o : Option) : bool :=
  existsb (String.eqb (key o)) keys.

(** The value of the last option of [options] whose key is [k], and
    [default] when there is none. *)
Definition lastValue (k : string) (options : list Option) (default : string) : string :=
  fold_left (fun acc o => if String.eqb (key o) k then value o else acc)
    options default.

(** A hardware address [ParseMAC] can return: 6, 8 or 20 bytes. *)
Definition validMAC (mac : net.HardwareAddr) : Prop :=
  (List.length mac = 6 \/ List.length mac = 8 \/ List.length mac = 20)%nat
  /\ Forall (fun b => (0 <= b < 256)%Z) mac.

(** The device the dispatcher starts from, for each tag of its [switch]. *)
Definition emptyDevices : list (string * VirtioDevice) :=
  [ ("virtio-blk", OfVirtioBlk virtioBlkNewEmpty);
    ("virtio-fs", OfVirtioFs {| SharedDir := ""; MountTag := "" |});
    ("virtio-net", OfVirtioNet {| Nat := false; MacAddress := []; Socket := None |});
    ("virtio-rng", OfVirtioRng Build_VirtioRng);
    ("virtio-serial", OfVirtioSerial {| LogFile := "" |});
    ("virtio-vsock", OfVirtioVsock {| Port := 0; SocketURL := ""; Listen := false |});
    ("usb-mass-storage", OfUSBMassStorage usbMassStorageNewEmpty) ].

(** * Properties *)

(** ** The library functions on sample inputs *)

Example Split_empty : strings.Split "" "," = [""].
Proof. reflexivity. Qed.

Example Split_trailing : strings.Split "virtio-rng,," "," = ["virtio-rng"; ""; ""].
Proof. reflexivity. Qed.

Example SplitN_first_only : strings.SplitN "a=b=c" "=" 2 = ["a"; "b=c"].
Proof. reflexivity. Qed.

Example Atoi_samples :
  strconv.Atoi "1024" = (1024%Z, None)
  /\ strconv.Atoi "-1" = ((-1)%Z, None)
  /\ strconv.Atoi "+7" = (7%Z, None)
  /\ snd (strconv.Atoi "12abc") <> None
  /\ snd (strconv.Atoi "") <> None
  /\ snd (strconv.Atoi "-") <> None
  /\ snd (strconv.Atoi "9223372036854775808") <> None
  /\ strconv.Atoi "-9223372036854775808" = (minInt, None).
Proof. repeat split; try reflexivity; discriminate. Qed.

Example ParseMAC_samples :
  net.ParseMAC "aa:bb:cc:dd:ee:ff" = ([170; 187; 204; 221; 238; 255]%Z, None)
  /\ net.ParseMAC "0000.5e00.5301" = ([0; 0; 94; 0; 83; 1]%Z, None)
  /\ snd (net.ParseMAC "aa:bb:cc:dd:ee") <> None
  /\ snd (net.ParseMAC "aa:bb:cc:dd:ee-ff") <> None
  /\ net.String_ [170; 187; 204; 221; 238; 255]%Z = "aa:bb:cc:dd:ee:ff".
Proof. repeat split; try reflexivity; discriminate. Qed.

Example fmt_d_samples : fmt.d 0 = "0" /\ fmt.d 1024 = "1024".
Proof. split; reflexivity. Qed.

(** ** The tokenizer *)

Lemma cut_absent (s : string) (sep : ascii) :
  hasByte sep s = false -> strings.cut s sep = None.
Proof.
  induction s as [|c r IH]; simpl; [reflexivity|].
  intros H. apply orb_false_iff in H as [Hc Hr].
  rewrite Hc, (IH Hr). reflexivity.
Qed.

Lemma cut_first (k v : string) (sep : ascii) :
  hasByte sep k = false ->
  strings.cut (k ++ String sep v) sep = Some (k, v).
Proof.
  induction k as [|c r IH]; simpl.
  - intros _. rewrite Ascii.eqb_refl. reflexivity.
  - intros H. apply orb_false_iff in H as [Hc Hr].
    rewrite Hc, (IH Hr). reflexivity.
Qed.

Lemma strToOption_bare (seg : string) :
  hasByte "=" seg = false ->
  strToOption seg = Returns {| key := seg; value := "" |}.
Proof.
  intros H. unfold strToOption. simpl. rewrite (cut_absent _ _ H). reflexivity.
Qed.

Lemma strToOption_pair (k v : string) :
  hasByte "=" k = false ->
  strToOption (k ++ String "=" v) = Returns {| key := k; value := v |}.
Proof.
  intros H. unfold strToOption. simpl. rewrite (cut_first _ _ _ H). reflexivity.
Qed.

Lemma strToOption_returns (seg : string) :
  exists o, strToOption seg = Returns o.
Proof.
  unfold strToOption. simpl.
  destruct (strings.cut seg "=") as [[a b]|]; simpl; eexists; reflexivity.
Qed.

Lemma strvToOptions_range_spec (opts : list string) :
  forall parsedOpts,
  exists os,
    strvToOptions_range parsedOpts opts = Returns (parsedOpts ++ os)%list
    /\ Forall2 (fun seg o => strToOption seg = Returns o)
         (filter (fun seg => negb (String.eqb seg "")) opts) os.
Proof.
  induction opts as [|opt rest IH]; intros acc; simpl.
  - exists []. rewrite app_nil_r. split; [reflexivity | constructor].
  - destruct opt as [|c r]; simpl.
    + apply IH.
    + destruct (strToOption_returns (String c r)) as [o Ho].
      rewrite Ho. simpl.
      destruct (IH (acc ++ [o])%list) as [os [Hrun Hall]].
      exists (o :: os). split.
      * rewrite Hrun, <- app_assoc. reflexivity.
      * constructor; assumption.
Qed.

(** C4. The tokenizer never fails; it drops the empty segments and turns
    every other segment, in order, into one option: split at the first
    [=] when there is one (the value keeps any further [=]), and with an
    empty value when there is none. *)
Theorem strvToOptions_tokenizes (opts : list string) :
  exists os,
    strvToOptions opts = Returns os
    /\ Forall2
         (fun seg o =>
            (forall k v, seg = k ++ String "=" v -> hasByte "=" k = false ->
                         o = {| key := k; value := v |})
            /\ (hasByte "=" seg = false -> o = {| key := seg; value := "" |}))
         (filter (fun seg => negb (String.eqb seg "")) opts) os.
Proof.
  destruct (strvToOptions_range_spec opts []) as [os [Hrun Hall]].
  exists os. split; [exact Hrun|].
  eapply Forall2_impl; [|exact Hall].
  intros seg o Ho. cbv beta in Ho. split.
  - intros k v -> Hk. rewrite (strToOption_pair _ _ Hk) in Ho. congruence.
  - intros Hseg. rewrite (strToOption_bare _ Hseg) in Ho. congruence.
Qed.

Lemma strvToOptions_tokenizes_witness :
  exists os,
    strvToOptions ["path=/a=b"; ""; "nat"; ""; "=x"] = Returns os
    /\ Forall2
         (fun seg o =>
            (forall k v, seg = k ++ String "=" v -> hasByte "=" k = false ->
                         o = {| key := k; value := v |})
            /\ (hasByte "=" seg = false -> o = {| key := seg; value := "" |}))
         ["path=/a=b"; "nat"; "=x"] os.
Proof.
  exact (strvToOptions_tokenizes ["path=/a=b"; ""; "nat"; ""; "=x"]).
Defined.

Example strvToOptions_sample :
  strvToOptions ["path=/a=b"; ""; "nat"; ""; "=x"]
  = Returns [ {| key := "path"; value := "/a=b" |};
              {| key := "nat"; value := "" |};
              {| key := ""; value := "x" |} ].
Proof. reflexivity. Qed.

(** ** Loops over the options *)

Section ForRange.

Context {T : Type} (body : T -> Option -> T * option error).

Lemma forRange_app (state : T) (pre post : list Option) :
  forRange body state (pre ++ post)%list
  = match forRange body state pre with
    | (state', None) => forRange body state' post
    | (state', Some err) => (state', Some err)
    end.
Proof.
  revert state. induction pre as [|o pre IH]; intros state; simpl.
  - reflexivity.
  - destruct (body state o) as [state' [err|]]; [reflexivity | apply IH].
Qed.

(** A property of the state that every pass through the body keeps
    holds when the loop ends, however it ends. *)
Lemma forRange_invariant (P : T -> Prop) (options : list Option) :
  (forall state o, In o options -> P state -> P (fst (body state o))) ->
  forall state, P state -> P (fst (forRange body state options)).
Proof.
  induction options as [|o rest IH]; intros Hbody state Hstate; simpl.
  - exact Hstate.
  - assert (Hstep : P (fst (body state o))) by (apply Hbody; simpl; auto).
    destruct (body state o) as [state' [err|]]; simpl in *.
    + exact Hstep.
    + apply IH; [|exact Hstep].
      intros s o' Hin. apply Hbody. simpl. auto.
Qed.

(** A loop whose body accepts every option runs to the end. *)
Lemma forRange_accepts (options : list Option) :
  (forall state o, In o options -> snd (body state o) = None) ->
  forall state, snd (forRange body state options) = None.
Proof.
  induction options as [|o rest IH]; intros Hbody state; simpl.
  - reflexivity.
  - specialize (Hbody state o (or_introl eq_refl)) as Ho.
    destruct (body state o) as [state' [err|]]; simpl in *.
    + discriminate.
    + apply IH. intros s o' Hin. apply Hbody. simpl. auto.
Qed.

(** A loop that runs to the end has passed every option through the
    body without an error. *)
Lemma forRange_completed (options : list Option) :
  forall state,
  snd (forRange body state options) = None ->
  forall o, In o options -> exists state', snd (body state' o) = None.
Proof.
  induction options as [|o rest IH]; intros state Hrun o' Hin; simpl in *.
  - contradiction.
  - destruct (body state o) as [state' [err|]] eqn:Hbody; simpl in *.
    + discriminate.
    + destruct Hin as [<- | Hin].
      * exists state. rewrite Hbody. reflexivity.
      * eapply IH; eassumption.
Qed.

End ForRange.

(** ** StorageConfig *)

Lemma StorageConfig_case_frame (config : StorageConfig) (o : Option) :
  DevName (fst (StorageConfig_case config o)) = DevName config
  /\ ReadOnly (fst (StorageConfig_case config o)) = ReadOnly config.
Proof.
  unfold StorageConfig_case. destruct (String.eqb (key o) "path"); simpl; auto.
Qed.

Lemma StorageConfig_FromOptions_frame (config : StorageConfig) (options : list Option) :
  DevName (fst (StorageConfig_FromOptions config options)) = DevName config
  /\ ReadOnly (fst (StorageConfig_FromOptions config options)) = ReadOnly config.
Proof.
  unfold StorageConfig_FromOptions.
  apply (forRange_invariant StorageConfig_case
           (fun c => DevName c = DevName config /\ ReadOnly c = ReadOnly config)).
  - intros state o _ [Hd Hr].
    destruct (StorageConfig_case_frame state o) as [Hd' Hr']. split; congruence.
  - split; reflexivity.
Qed.

(** C9. Decoding into a [StorageConfig] leaves [DevName] and [ReadOnly]
    as they were, for every option sequence and whether or not the decode
    fails (so does decoding into the two devices that embed it); and the
    encoding does not depend on [ReadOnly]. *)
Theorem StorageConfig_ReadOnly_frame :
  (forall config options,
      DevName (fst (StorageConfig_FromOptions config options)) = DevName config
      /\ ReadOnly (fst (StorageConfig_FromOptions config options)) = ReadOnly config)
  /\ (forall dev options,
        let config' := BlkStorageConfig (fst (VirtioBlk_FromOptions dev options)) in
        DevName config' = DevName (BlkStorageConfig dev)
        /\ ReadOnly config' = ReadOnly (BlkStorageConfig dev))
  /\ (forall dev options,
        let config' := UsbStorageConfig (fst (USBMassStorage_FromOptions dev options)) in
        DevName config' = DevName (UsbStorageConfig dev)
        /\ ReadOnly config' = ReadOnly (UsbStorageConfig dev))
  /\ (forall devName imagePath readOnly readOnly',
        StorageConfig_ToCmdLine
          {| DevName := devName; ImagePath := imagePath; ReadOnly := readOnly |}
        = StorageConfig_ToCmdLine
            {| DevName := devName; ImagePath := imagePath; ReadOnly := readOnly' |}).
Proof.
  split; [exact StorageConfig_FromOptions_frame|].
  split; [|split].
  - intros dev options. unfold VirtioBlk_FromOptions.
    pose proof (forRange_invariant VirtioBlk_case
                  (fun st => BlkStorageConfig (fst st) = BlkStorageConfig dev)
                  options) as Hloop.
    destruct (fst (forRange VirtioBlk_case (dev, []) options)) as [dev1 unhandled]
      eqn:Hrun.
    assert (Hcfg : BlkStorageConfig dev1 = BlkStorageConfig dev).
    { change dev1 with (fst (dev1, unhandled)). rewrite <- Hrun. apply Hloop.
      - intros [d u] o _ Hd. unfold VirtioBlk_case.
        destruct (String.eqb (key o) "deviceId"); simpl in *; exact Hd.
      - reflexivity. }
    pose proof (StorageConfig_FromOptions_frame (BlkStorageConfig dev1) unhandled)
      as Hframe.
    destruct (StorageConfig_FromOptions (BlkStorageConfig dev1) unhandled)
      as [config err].
    simpl in *. rewrite <- Hcfg. exact Hframe.
  - intros dev options. unfold USBMassStorage_FromOptions.
    pose proof (StorageConfig_FromOptions_frame (UsbStorageConfig dev) options)
      as Hframe.
    destruct (StorageConfig_FromOptions (UsbStorageConfig dev) options)
      as [config err].
    simpl in *. exact Hframe.
  - reflexivity.
Qed.

Lemma StorageConfig_ReadOnly_frame_witness :
  let config := {| DevName := "virtio-blk"; ImagePath := "/old.raw"; ReadOnly := true |} in
  let options := [ {| key := "path"; value := "/img.raw" |};
                   {| key := "readonly"; value := "" |} ] in
  DevName (fst (StorageConfig_FromOptions config options)) = "virtio-blk"
  /\ ReadOnly (fst (StorageConfig_FromOptions config options)) = true.
Proof.
  exact (proj1 StorageConfig_ReadOnly_frame
           {| DevName := "virtio-blk"; ImagePath := "/old.raw"; ReadOnly := true |}
           [ {| key := "path"; value := "/img.raw" |};
             {| key := "readonly"; value := "" |} ]).
Defined.

(** ** virtio-blk *)

(** C1. The spec [virtio-blk,path=/img.raw,deviceId=disk0] decodes to a
    block device whose encoding is the flag token followed by the spec
    itself; the spec [virtio-blk] decodes to a block device whose
    encoding fails for want of an image path and yields no token. *)
Theorem VirtioBlk_example_roundtrip :
  (exists dev,
      deviceFromCmdLine "virtio-blk,path=/img.raw,deviceId=disk0"
      = Returns (Some (OfVirtioBlk dev), None)
      /\ ToCmdLine (OfVirtioBlk dev)
         = (["--device"; "virtio-blk,path=/img.raw,deviceId=disk0"], None))
  /\ (exists dev,
        deviceFromCmdLine "virtio-blk" = Returns (Some (OfVirtioBlk dev), None)
        /\ ToCmdLine (OfVirtioBlk dev)
           = ([], Some (fmt.Errorf "virtio-blk devices need the path to a disk image"))).
Proof.
  split; eexists; split; reflexivity.
Qed.

(** ** virtio-vsock *)

Lemma VirtioVsock_case_listen (dev : VirtioVsock) (o : Option) :
  key o = "listen" ->
  VirtioVsock_case dev o
  = ({| Port := Port dev; SocketURL := SocketURL dev; Listen := true |}, None).
Proof. intros H. unfold VirtioVsock_case. rewrite H. reflexivity. Qed.

Lemma VirtioVsock_case_connect (dev : VirtioVsock) (o : Option) :
  key o = "connect" ->
  VirtioVsock_case dev o
  = ({| Port := Port dev; SocketURL := SocketURL dev; Listen := false |}, None).
Proof. intros H. unfold VirtioVsock_case. rewrite H. reflexivity. Qed.

Lemma VirtioVsock_case_keeps_Listen (dev : VirtioVsock) (o : Option) :
  key o <> "listen" -> key o <> "connect" ->
  Listen (fst (VirtioVsock_case dev o)) = Listen dev.
Proof.
  intros Hl Hc. unfold VirtioVsock_case.
  apply String.eqb_neq in Hl, Hc. rewrite Hl, Hc.
  destruct (String.eqb (key o) "socketURL"); [reflexivity|].
  destruct (String.eqb (key o) "port"); [|reflexivity].
  destruct (strconv.Atoi (value o)) as [port [err|]]; reflexivity.
Qed.

Lemma VirtioVsock_case_stays_listening (dev : VirtioVsock) (o : Option) :
  key o <> "connect" -> Listen dev = true ->
  Listen (fst (VirtioVsock_case dev o)) = true.
Proof.
  intros Hc Hdev.
  destruct (String.eqb (key o) "listen") eqn:Hl.
  - apply String.eqb_eq in Hl. rewrite (VirtioVsock_case_listen _ _ Hl). reflexivity.
  - apply String.eqb_neq in Hl.
    rewrite (VirtioVsock_case_keeps_Listen _ _ Hl Hc). exact Hdev.
Qed.

Lemma VirtioVsock_listens_without_connect (dev : VirtioVsock) (options : list Option) :
  (forall o, In o options -> key o <> "connect") ->
  Listen (fst (VirtioVsock_FromOptions dev options)) = true.
Proof.
  intros Hkeys. unfold VirtioVsock_FromOptions.
  apply (forRange_invariant VirtioVsock_case (fun d => Listen d = true)).
  - intros state o Hin Hstate.
    apply VirtioVsock_case_stays_listening; auto.
  - reflexivity.
Qed.

(** C10. Decoding into a vsock device first sets [Listen], whatever it
    was: after decoding any option sequence without a [connect] key the
    device listens, also when the decode fails and also when the device
    was built with [listen = false]; decoding no option at all already
    changes such a device. *)
Theorem VirtioVsock_FromOptions_resets_Listen :
  (forall dev options,
      (forall o, In o options -> key o <> "connect") ->
      Listen (fst (VirtioVsock_FromOptions dev options)) = true)
  /\ (forall port socketURL,
        let dev := fst (VirtioVsockNew port socketURL false) in
        Listen dev = false
        /\ Listen (fst (VirtioVsock_FromOptions dev [])) = true).
Proof.
  split.
  - exact VirtioVsock_listens_without_connect.
  - intros port socketURL. split; reflexivity.
Qed.

Lemma VirtioVsock_FromOptions_resets_Listen_witness :
  let dev := fst (VirtioVsockNew 1024 "/tmp/s.sock" false) in
  let options := [ {| key := "port"; value := "2048" |};
                   {| key := "bogus"; value := "1" |} ] in
  (forall o, In o options -> key o <> "connect")
  /\ Listen dev = false
  /\ Listen (fst (VirtioVsock_FromOptions dev options)) = true.
Proof.
  assert (Hkeys : forall o,
             In o [ {| key := "port"; value := "2048" |};
                    {| key := "bogus"; value := "1" |} ] ->
             key o <> "connect").
  { intros o [<- | [<- | []]]; discriminate. }
  split; [exact Hkeys|]. split; [reflexivity|].
  exact (proj1 VirtioVsock_FromOptions_resets_Listen
           (fst (VirtioVsockNew 1024 "/tmp/s.sock" false)) _ Hkeys).
Defined.

(** C3. A vsock decode leaves the device listening when the options hold
    neither a [listen] nor a [connect] key; a decode that succeeds leaves
    the direction named by the last [listen] or [connect] key of the
    sequence.  The spec [virtio-vsock,port=1024,socketURL=/tmp/s.sock]
    decodes to a listening device, which encodes to that spec followed by
    [,listen]. *)
Theorem VirtioVsock_direction :
  (forall dev options,
      (forall o, In o options -> key o <> "listen" /\ key o <> "connect") ->
      Listen (fst (VirtioVsock_FromOptions dev options)) = true)
  /\ (forall dev pre o post dev',
        VirtioVsock_FromOptions dev (pre ++ o :: post)%list = (dev', None) ->
        (forall p, In p post -> key p <> "listen" /\ key p <> "connect") ->
        (key o = "listen" -> Listen dev' = true)
        /\ (key o = "connect" -> Listen dev' = false))
  /\ (exists dev,
        deviceFromCmdLine "virtio-vsock,port=1024,socketURL=/tmp/s.sock"
        = Returns (Some (OfVirtioVsock dev), None)
        /\ Listen dev = true
        /\ ToCmdLine (OfVirtioVsock dev)
           = (["--device"; "virtio-vsock,port=1024,socketURL=/tmp/s.sock,listen"],
              None)).
Proof.
  split; [|split].
  - intros dev options Hkeys.
    apply VirtioVsock_listens_without_connect.
    intros o Hin. exact (proj2 (Hkeys o Hin)).
  - intros dev pre o post dev' Hrun Hpost.
    unfold VirtioVsock_FromOptions in Hrun.
    rewrite forRange_app in Hrun.
    destruct (forRange VirtioVsock_case _ pre) as [dev1 [err|]]; [discriminate|].
    simpl in Hrun.
    assert (Hkeep : forall d,
               Listen (fst (forRange VirtioVsock_case d post)) = Listen d).
    { intros d.
      apply (forRange_invariant VirtioVsock_case (fun x => Listen x = Listen d));
        [|reflexivity].
      intros state p Hin Hstate. destruct (Hpost p Hin) as [Hl Hc].
      rewrite (VirtioVsock_case_keeps_Listen _ _ Hl Hc). exact Hstate. }
    split; intros Hkey.
    + rewrite (VirtioVsock_case_listen _ _ Hkey) in Hrun.
      specialize (Hkeep {| Port := Port dev1; SocketURL := SocketURL dev1;
                           Listen := true |}).
      rewrite Hrun in Hkeep. exact Hkeep.
    + rewrite (VirtioVsock_case_connect _ _ Hkey) in Hrun.
      specialize (Hkeep {| Port := Port dev1; SocketURL := SocketURL dev1;
                           Listen := false |}).
      rewrite Hrun in Hkeep. exact Hkeep.
  - eexists. split; [reflexivity|]. split; reflexivity.
Qed.

Lemma VirtioVsock_direction_witness :
  let dev := {| Port := 0; SocketURL := ""; Listen := false |} in
  let pre := [ {| key := "listen"; value := "" |};
               {| key := "port"; value := "1024" |} ] in
  let o := {| key := "connect"; value := "" |} in
  let post := [ {| key := "socketURL"; value := "/tmp/s.sock" |} ] in
  exists dev',
    VirtioVsock_FromOptions dev (pre ++ o :: post)%list = (dev', None)
    /\ (forall p, In p post -> key p <> "listen" /\ key p <> "connect")
    /\ Listen dev' = false.
Proof.
  eexists. split; [reflexivity|].
  assert (Hpost : forall p,
             In p [ {| key := "socketURL"; value := "/tmp/s.sock" |} ] ->
             key p <> "listen" /\ key p <> "connect").
  { intros p [<- | []]. split; discriminate. }
  split; [exact Hpost|].
  exact (proj2 (proj1 (proj2 VirtioVsock_direction)
                  {| Port := 0; SocketURL := ""; Listen := false |}
                  [ {| key := "listen"; value := "" |};
                    {| key := "port"; value := "1024" |} ]
                  {| key := "connect"; value := "" |}
                  [ {| key := "socketURL"; value := "/tmp/s.sock" |} ]
                  _ eq_refl Hpost) eq_refl).
Defined.

(** ** virtio-net *)

(** C2, as the code has it. Encoding a network device succeeds exactly
    when one of NAT and the socket is set: with both it fails with the
    conflict error, with neither with the one-of-two error, and in both
    cases it yields no token.  The spec [virtio-net,nat,fd=5] fails to
    decode with the conflict error.  The spec
    [virtio-net,mac=aa:bb:cc:dd:ee:ff] fails with the one-of-two error
    already when it is decoded, because [FromOptions] ends with the same
    validation as [ToCmdLine] starts with: the dispatcher returns no
    device for it. *)
Theorem VirtioNet_exactly_one :
  (forall mac file,
      VirtioNet_ToCmdLine {| Nat := true; MacAddress := mac; Socket := Some file |}
      = ([], Some (fmt.Errorf "'nat' and 'fd' cannot be set at the same time")))
  /\ (forall mac,
        VirtioNet_ToCmdLine {| Nat := false; MacAddress := mac; Socket := None |}
        = ([], Some (fmt.Errorf "One of 'nat' or 'fd' must be set")))
  /\ (forall mac,
        snd (VirtioNet_ToCmdLine {| Nat := true; MacAddress := mac; Socket := None |})
        = None)
  /\ (forall mac file,
        snd (VirtioNet_ToCmdLine
               {| Nat := false; MacAddress := mac; Socket := Some file |})
        = None)
  /\ deviceFromCmdLine "virtio-net,nat,fd=5"
     = Returns (None, Some (fmt.Errorf "'nat' and 'fd' cannot be set at the same time"))
  /\ deviceFromCmdLine "virtio-net,mac=aa:bb:cc:dd:ee:ff"
     = Returns (None, Some (fmt.Errorf "One of 'nat' or 'fd' must be set"))
  /\ FromOptions {| Nat := false; MacAddress := []; Socket := None |}
       [ {| key := "mac"; value := "aa:bb:cc:dd:ee:ff" |} ]
     = ({| Nat := false; MacAddress := [170; 187; 204; 221; 238; 255]%Z;
           Socket := None |},
        Some (fmt.Errorf "One of 'nat' or 'fd' must be set")).
Proof.
  repeat split; intros; reflexivity.
Qed.

(** C2, against the claim as written: the spec
    [virtio-net,mac=aa:bb:cc:dd:ee:ff] does not decode to a device whose
    encoding then fails; its decode fails and there is nothing to
    encode. *)
Lemma VirtioNet_mac_only_not_at_encode :
  ~ (exists dev,
        deviceFromCmdLine "virtio-net,mac=aa:bb:cc:dd:ee:ff"
        = Returns (Some dev, None)
        /\ snd (ToCmdLine dev)
           = Some (fmt.Errorf "One of 'nat' or 'fd' must be set")).
Proof.
  intros [dev [Hdecode _]]. vm_compute in Hdecode. discriminate.
Qed.

(** ** Numeric option values *)

Lemma digits_allDigits (s : string) :
  forall acc n, strconv.digits acc s = Some n -> allDigits s = true.
Proof.
  induction s as [|c r IH]; intros acc n H; simpl in *.
  - reflexivity.
  - destruct (strconv.isDigit c); [|discriminate].
    simpl. eapply IH. exact H.
Qed.

(** What [Atoi] accepts: an optional sign and then digits only, at least
    one, with a value in the range of [int]. *)
Lemma Atoi_accepts (s : string) (v : Z) :
  strconv.Atoi s = (v, None) ->
  (exists sign body,
      s = sign ++ body
      /\ (sign = "" \/ sign = "+" \/ sign = "-")
      /\ body <> ""
      /\ allDigits body = true)
  /\ (minInt <= v <= maxInt)%Z.
Proof.
  unfold strconv.Atoi.
  destruct s as [|c r]; [discriminate|].
  set (body := if Ascii.eqb c "-" || Ascii.eqb c "+" then r else String c r).
  assert (Hsign : exists sign,
             String c r = sign ++ body
             /\ (sign = "" \/ sign = "+" \/ sign = "-")).
  { subst body.
    destruct (Ascii.eqb c "-") eqn:Hm; [|destruct (Ascii.eqb c "+") eqn:Hp]; simpl.
    - apply Ascii.eqb_eq in Hm. subst c. exists "-". auto.
    - apply Ascii.eqb_eq in Hp. subst c. exists "+". auto.
    - exists "". auto. }
  cbv zeta. fold body.
  destruct body as [|b0 b1] eqn:Hbody; [discriminate|].
  destruct (strconv.digits 0 (String b0 b1)) as [n|] eqn:Hd; [|discriminate].
  destruct ((if Ascii.eqb c "-" then (- n)%Z else n) <? minInt)%Z eqn:Hlo;
    [discriminate|].
  destruct (maxInt <? (if Ascii.eqb c "-" then (- n)%Z else n))%Z eqn:Hhi;
    [discriminate|].
  intros H. injection H as <-.
  apply Z.ltb_ge in Hlo, Hhi. split; [|lia].
  destruct Hsign as [sign [Hs Hcases]].
  exists sign, (String b0 b1). repeat split.
  - exact Hs.
  - exact Hcases.
  - discriminate.
  - eapply digits_allDigits. exact Hd.
Qed.

Lemma NewFile_negative (fd : Z) (name : string) :
  (minInt <= fd < 0)%Z -> os.NewFile (uint64_of_int fd) name = None.
Proof.
  intros H. unfold os.NewFile, uint64_of_int, int_of_uint64.
  assert (Hmod : (fd mod two64 = fd + two64)%Z).
  { rewrite <- (Z.mod_add fd 1 two64) by (unfold two64; lia).
    apply Z.mod_small. unfold minInt, two64 in *. lia. }
  rewrite Hmod.
  destruct (fd + two64 <=? maxInt)%Z eqn:Hle.
  - apply Z.leb_le in Hle. unfold minInt, maxInt, two64 in *. lia.
  - replace (fd + two64 - two64)%Z with fd by lia.
    destruct (fd <? 0)%Z eqn:Hneg; [reflexivity|].
    apply Z.ltb_ge in Hneg. lia.
Qed.

Lemma NewFile_nonnegative (fd : Z) (name : string) :
  (0 <= fd <= maxInt)%Z ->
  os.NewFile (uint64_of_int fd) name = Some {| os.Sysfd := fd; os.name := name |}.
Proof.
  intros H. unfold os.NewFile, uint64_of_int, int_of_uint64.
  rewrite Z.mod_small by (unfold maxInt, two64 in *; lia).
  destruct (fd <=? maxInt)%Z eqn:Hle; [|apply Z.leb_gt in Hle; lia].
  destruct (fd <? 0)%Z eqn:Hneg; [apply Z.ltb_lt in Hneg; lia | reflexivity].
Qed.

Lemma VirtioVsock_case_port (dev : VirtioVsock) (o : Option) :
  key o = "port" ->
  VirtioVsock_case dev o
  = match strconv.Atoi (value o) with
    | (_, Some err) => (dev, Some err)
    | (port, None) =>
        ({| Port := uint64_of_int port; SocketURL := SocketURL dev;
            Listen := Listen dev |}, None)
    end.
Proof. intros H. unfold VirtioVsock_case. rewrite H. reflexivity. Qed.

Lemma VirtioNet_case_fd (dev : VirtioNet) (o : Option) :
  key o = "fd" ->
  VirtioNet_case dev o
  = match strconv.Atoi (value o) with
    | (_, Some err) => (dev, Some err)
    | (fd, None) =>
        ({| Nat := Nat dev; MacAddress := MacAddress dev;
            Socket := os.NewFile (uint64_of_int fd) "vfkit virtio-net socket" |},
         None)
    end.
Proof. intros H. unfold VirtioNet_case. rewrite H. reflexivity. Qed.

(** C7, as the code has it. A vsock [port] value and a network [fd] value
    go through [Atoi]: a decode that succeeds has parsed every one of them
    in full (optional sign, then digits only, within the range of [int]),
    and the first one that does not parse ends the decode with [Atoi]'s
    error.  The sign of an [fd] is not looked at: a negative one parses
    and leaves the device without a socket, a nonnegative one sets the
    socket; so [virtio-net,nat,fd=-1] decodes to a NAT device and
    [virtio-net,fd=-1] fails only in the final validation. *)
Theorem numeric_options_parse_in_full :
  (forall dev options dev' o,
      VirtioVsock_FromOptions dev options = (dev', None) ->
      In o options -> key o = "port" ->
      exists port, strconv.Atoi (value o) = (port, None))
  /\ (forall dev pre o post dev1 err,
        VirtioVsock_FromOptions dev pre = (dev1, None) ->
        key o = "port" -> snd (strconv.Atoi (value o)) = Some err ->
        VirtioVsock_FromOptions dev (pre ++ o :: post)%list = (dev1, Some err))
  /\ (forall dev options dev' o,
        VirtioNet_FromOptions dev options = (dev', None) ->
        In o options -> key o = "fd" ->
        exists fd, strconv.Atoi (value o) = (fd, None))
  /\ (forall dev pre o post dev1 err,
        forRange VirtioNet_case dev pre = (dev1, None) ->
        key o = "fd" -> snd (strconv.Atoi (value o)) = Some err ->
        VirtioNet_FromOptions dev (pre ++ o :: post)%list = (dev1, Some err))
  /\ (forall s v,
        strconv.Atoi s = (v, None) ->
        (exists sign body,
            s = sign ++ body
            /\ (sign = "" \/ sign = "+" \/ sign = "-")
            /\ body <> ""
            /\ allDigits body = true)
        /\ (minInt <= v <= maxInt)%Z)
  /\ (forall dev o fd,
        key o = "fd" -> strconv.Atoi (value o) = (fd, None) ->
        VirtioNet_case dev o
        = ({| Nat := Nat dev; MacAddress := MacAddress dev;
              Socket := if (fd <? 0)%Z then None
                        else Some {| os.Sysfd := fd;
                                     os.name := "vfkit virtio-net socket" |} |},
           None))
  /\ deviceFromCmdLine "virtio-net,nat,fd=-1"
     = Returns (Some (OfVirtioNet {| Nat := true; MacAddress := []; Socket := None |}),
                None)
  /\ deviceFromCmdLine "virtio-net,fd=-1"
     = Returns (None, Some (fmt.Errorf "One of 'nat' or 'fd' must be set")).
Proof.
  split; [|split; [|split; [|split; [|split; [|split; [|split]]]]]].
  - intros dev options dev' o Hrun Hin Hkey.
    unfold VirtioVsock_FromOptions in Hrun.
    destruct (forRange_completed VirtioVsock_case options _
                (f_equal snd Hrun) o Hin) as [state Hbody].
    rewrite (VirtioVsock_case_port _ _ Hkey) in Hbody.
    destruct (strconv.Atoi (value o)) as [port [err|]]; [discriminate|].
    exists port. reflexivity.
  - intros dev pre o post dev1 err Hpre Hkey Hval.
    unfold VirtioVsock_FromOptions in *.
    rewrite forRange_app, Hpre. simpl.
    rewrite (VirtioVsock_case_port _ _ Hkey).
    destruct (strconv.Atoi (value o)) as [port [e|]]; simpl in Hval; congruence.
  - intros dev options dev' o Hrun Hin Hkey.
    unfold VirtioNet_FromOptions in Hrun.
    destruct (forRange VirtioNet_case dev options) as [d [e|]] eqn:Hloop;
      [discriminate|].
    destruct (forRange_completed VirtioNet_case options dev
                (f_equal snd Hloop) o Hin) as [state Hbody].
    rewrite (VirtioNet_case_fd _ _ Hkey) in Hbody.
    destruct (strconv.Atoi (value o)) as [fd [err|]]; [discriminate|].
    exists fd. reflexivity.
  - intros dev pre o post dev1 err Hpre Hkey Hval.
    unfold VirtioNet_FromOptions.
    rewrite forRange_app, Hpre. simpl.
    rewrite (VirtioNet_case_fd _ _ Hkey).
    destruct (strconv.Atoi (value o)) as [fd [e|]]; simpl in Hval; congruence.
  - exact Atoi_accepts.
  - intros dev o fd Hkey Hval.
    rewrite (VirtioNet_case_fd _ _ Hkey), Hval.
    destruct (proj2 (Atoi_accepts _ _ Hval)) as [Hlo Hhi].
    destruct (fd <? 0)%Z eqn:Hneg.
    + apply Z.ltb_lt in Hneg. rewrite NewFile_negative by lia. reflexivity.
    + apply Z.ltb_ge in Hneg. rewrite NewFile_nonnegative by lia. reflexivity.
  - reflexivity.
  - reflexivity.
Qed.

Lemma numeric_options_parse_in_full_witness :
  let dev := {| Nat := false; MacAddress := []; Socket := None |} in
  let pre := [ {| key := "mac"; value := "aa:bb:cc:dd:ee:ff" |} ] in
  let o := {| key := "fd"; value := "5x" |} in
  let post := [ {| key := "nat"; value := "" |} ] in
  forRange VirtioNet_case dev pre
  = ({| Nat := false; MacAddress := [170; 187; 204; 221; 238; 255]%Z;
        Socket := None |}, None)
  /\ snd (strconv.Atoi (value o)) = Some (NumError "Atoi" "5x" "invalid syntax")
  /\ snd (VirtioNet_FromOptions dev (pre ++ o :: post)%list)
     = Some (NumError "Atoi" "5x" "invalid syntax").
Proof.
  split; [reflexivity|]. split; [reflexivity|].
  exact (f_equal snd
           (proj1 (proj2 (proj2 (proj2 numeric_options_parse_in_full)))
              {| Nat := false; MacAddress := []; Socket := None |}
              [ {| key := "mac"; value := "aa:bb:cc:dd:ee:ff" |} ]
              {| key := "fd"; value := "5x" |}
              [ {| key := "nat"; value := "" |} ]
              _ _ eq_refl eq_refl eq_refl)).
Defined.

(** C7, against the claim as written: a negative [fd] value is not
    rejected. The spec [virtio-net,nat,fd=-1] decodes, and the device
    encodes as a NAT device. *)
Lemma negative_fd_is_accepted :
  strconv.Atoi "-1" = ((-1)%Z, None)
  /\ exists dev,
      deviceFromCmdLine "virtio-net,nat,fd=-1" = Returns (Some dev, None)
      /\ ToCmdLine dev = (["--device"; "virtio-net,nat"], None).
Proof.
  split; [reflexivity|]. eexists. split; reflexivity.
Qed.

(** ** Unknown option keys *)

Section FirstRejected.

Context {T : Type} (body : T -> Option -> T * option error).

(** When the body rejects [o] with [err] in every state the loop can be
    in, a loop over [pre ++ o :: post] ends with the error that ended
    the loop over [pre], or else with [err]. *)
Lemma forRange_first_rejected (P : T -> Prop) (err : error)
  (pre : list Option) (o : Option) (post : list Option) (state : T) :
  (forall s o', In o' pre -> P s -> P (fst (body s o'))) ->
  (forall s, P s -> snd (body s o) = Some err) ->
  P state ->
  snd (forRange body state (pre ++ o :: post)%list)
  = match snd (forRange body state pre) with
    | Some err' => Some err'
    | None => Some err
    end.
Proof.
  intros Hkeep Hreject Hstate.
  pose proof (forRange_invariant body P pre Hkeep state Hstate) as Hpre.
  rewrite forRange_app.
  destruct (forRange body state pre) as [s1 [err'|]]; simpl in *.
  - reflexivity.
  - specialize (Hreject s1 Hpre).
    destruct (body s1 o) as [s2 [e2|]]; simpl in *; congruence.
Qed.

End FirstRejected.

(** Turns [known keys o = b] into the tests on [key o] it stands for. *)
Ltac known_keys :=
  unfold known, VirtioSerial_keys, VirtioNet_keys, StorageConfig_keys,
    VirtioBlk_keys, VirtioVsock_keys, VirtioFs_keys in *;
  simpl existsb in *;
  repeat match goal with
    | H : (_ || _)%bool = false |- _ =>
        let H1 := fresh H in apply orb_false_iff in H as [H1 H]
    end.

Lemma Forall_known_In (keys : list string) (pre : list Option) :
  Forall (fun p => known keys p = true) pre ->
  forall o, In o pre -> known keys o = true.
Proof. intros H. apply Forall_forall. exact H. Qed.

Lemma VirtioSerial_rejects (dev : VirtioSerial) (pre : list Option) (o : Option)
  (post : list Option) :
  Forall (fun p => known VirtioSerial_keys p = true) pre ->
  known VirtioSerial_keys o = false ->
  snd (VirtioSerial_FromOptions dev (pre ++ o :: post)%list)
  = Some (fmt.Errorf ("Unknown option for virtio-serial devices: " ++ key o)).
Proof.
  intros Hpre Ho. unfold VirtioSerial_FromOptions.
  rewrite (forRange_first_rejected VirtioSerial_case (fun _ => True)
             (fmt.Errorf ("Unknown option for virtio-serial devices: " ++ key o)));
    auto.
  - rewrite forRange_accepts; [reflexivity|].
    intros s p Hin. pose proof (Forall_known_In _ _ Hpre p Hin) as Hp.
    known_keys. unfold VirtioSerial_case.
    destruct (String.eqb (key p) "logFilePath"); [reflexivity | discriminate].
  - intros s _. known_keys. unfold VirtioSerial_case. rewrite Ho0. reflexivity.
Qed.

Lemma VirtioFs_rejects (dev : VirtioFs) (pre : list Option) (o : Option)
  (post : list Option) :
  Forall (fun p => known VirtioFs_keys p = true) pre ->
  known VirtioFs_keys o = false ->
  snd (VirtioFs_FromOptions dev (pre ++ o :: post)%list)
  = Some (fmt.Errorf ("Unknown option for virtio-fs devices: " ++ key o)).
Proof.
  intros Hpre Ho. unfold VirtioFs_FromOptions.
  rewrite (forRange_first_rejected VirtioFs_case (fun _ => True)
             (fmt.Errorf ("Unknown option for virtio-fs devices: " ++ key o)));
    auto.
  - rewrite forRange_accepts; [reflexivity|].
    intros s p Hin. pose proof (Forall_known_In _ _ Hpre p Hin) as Hp.
    known_keys. unfold VirtioFs_case.
    destruct (String.eqb (key p) "sharedDir"); [reflexivity|].
    destruct (String.eqb (key p) "mountTag"); [reflexivity | discriminate].
  - intros s _. known_keys. unfold VirtioFs_case. rewrite Ho0, Ho1. reflexivity.
Qed.

Lemma StorageConfig_rejects (config : StorageConfig) (pre : list Option) (o : Option)
  (post : list Option) :
  Forall (fun p => known StorageConfig_keys p = true) pre ->
  known StorageConfig_keys o = false ->
  snd (StorageConfig_FromOptions config (pre ++ o :: post)%list)
  = Some (fmt.Errorf
            ("Unknown option for " ++ DevName config ++ " devices: " ++ key o)).
Proof.
  intros Hpre Ho. unfold StorageConfig_FromOptions.
  rewrite (forRange_first_rejected StorageConfig_case
             (fun c => DevName c = DevName config)
             (fmt.Errorf
                ("Unknown option for " ++ DevName config ++ " devices: " ++ key o)));
    auto.
  - rewrite forRange_accepts; [reflexivity|].
    intros s p Hin. pose proof (Forall_known_In _ _ Hpre p Hin) as Hp.
    known_keys. unfold StorageConfig_case.
    destruct (String.eqb (key p) "path"); [reflexivity | discriminate].
  - intros s p _ Hs. rewrite (proj1 (StorageConfig_case_frame s p)). exact Hs.
  - intros s Hs. known_keys. unfold StorageConfig_case. rewrite Ho0, Hs. reflexivity.
Qed.

Lemma VirtioBlk_unhandled (options : list Option) :
  forall dev unhandledOpts,
  exists dev',
    fst (forRange VirtioBlk_case (dev, unhandledOpts) options)
    = (dev',
       (unhandledOpts
          ++ filter (fun o => negb (String.eqb (key o) "deviceId")) options)%list)
    /\ BlkStorageConfig dev' = BlkStorageConfig dev.
Proof.
  induction options as [|o rest IH]; intros dev acc; simpl.
  - exists dev. rewrite app_nil_r. split; reflexivity.
  - destruct (String.eqb (key o) "deviceId"); simpl.
    + destruct (IH (SetDeviceIdentifier dev (value o)) acc) as [dev' [Hrun Hcfg]].
      exists dev'. split; assumption.
    + destruct (IH dev (acc ++ [o])%list) as [dev' [Hrun Hcfg]].
      exists dev'. split; [|assumption].
      rewrite Hrun, <- app_assoc. reflexivity.
Qed.

Lemma VirtioBlk_rejects (dev : VirtioBlk) (pre : list Option) (o : Option)
  (post : list Option) :
  Forall (fun p => known VirtioBlk_keys p = true) pre ->
  known VirtioBlk_keys o = false ->
  snd (VirtioBlk_FromOptions dev (pre ++ o :: post)%list)
  = Some (fmt.Errorf
            ("Unknown option for " ++ DevName (BlkStorageConfig dev)
               ++ " devices: " ++ key o)).
Proof.
  intros Hpre Ho.
  assert (Hid : String.eqb (key o) "deviceId" = false).
  { known_keys. assumption. }
  assert (Hpath : known StorageConfig_keys o = false).
  { known_keys. rewrite orb_false_r. assumption. }
  assert (Hrest : Forall (fun p => known StorageConfig_keys p = true)
                    (filter (fun o => negb (String.eqb (key o) "deviceId")) pre)).
  { apply Forall_forall. intros p Hin. apply filter_In in Hin as [Hin Hp].
    pose proof (Forall_known_In _ _ Hpre p Hin) as Hk.
    known_keys. destruct (String.eqb (key p) "deviceId"); [discriminate | exact Hk]. }
  unfold VirtioBlk_FromOptions.
  destruct (VirtioBlk_unhandled (pre ++ o :: post)%list dev [])
    as [dev' [Hrun Hcfg]].
  rewrite Hrun. simpl app.
  rewrite filter_app. simpl filter. rewrite Hid. simpl negb. cbv iota.
  pose proof (StorageConfig_rejects (BlkStorageConfig dev') _ o
                (filter (fun o => negb (String.eqb (key o) "deviceId")) post)
                Hrest Hpath) as Hstorage.
  destruct (StorageConfig_FromOptions (BlkStorageConfig dev') _) as [config err].
  simpl snd in *. rewrite Hstorage, Hcfg. reflexivity.
Qed.

Lemma VirtioNet_rejects (dev : VirtioNet) (pre : list Option) (o : Option)
  (post : list Option) :
  known VirtioNet_keys o = false ->
  snd (VirtioNet_FromOptions dev (pre ++ o :: post)%list)
  = match snd (forRange VirtioNet_case dev pre) with
    | Some err => Some err
    | None => Some (fmt.Errorf ("Unknown option for virtio-net devices: " ++ key o))
    end.
Proof.
  intros Ho.
  rewrite <- (forRange_first_rejected VirtioNet_case (fun _ => True) _ pre o post dev);
    auto.
  - unfold VirtioNet_FromOptions.
    destruct (forRange VirtioNet_case dev (pre ++ o :: post)%list) as [d [e|]] eqn:Hrun.
    + reflexivity.
    + exfalso.
      destruct (forRange_completed VirtioNet_case _ dev (f_equal snd Hrun) o)
        as [s Hs].
      { apply in_elt. }
      known_keys. unfold VirtioNet_case in Hs.
      repeat match type of Hs with
             | context [String.eqb (key o) ?k] =>
                 replace (String.eqb (key o) k) with false in Hs by (symmetry; assumption)
             end.
      discriminate.
  - intros s _. known_keys. unfold VirtioNet_case.
    repeat match goal with
           | H : String.eqb (key o) _ = false |- _ => rewrite H; clear H
           end.
    reflexivity.
Qed.

Lemma VirtioVsock_rejects (dev : VirtioVsock) (pre : list Option) (o : Option)
  (post : list Option) :
  known VirtioVsock_keys o = false ->
  snd (VirtioVsock_FromOptions dev (pre ++ o :: post)%list)
  = match snd (VirtioVsock_FromOptions dev pre) with
    | Some err => Some err
    | None => Some (fmt.Errorf ("Unknown option for virtio-vsock devices: " ++ key o))
    end.
Proof.
  intros Ho. unfold VirtioVsock_FromOptions.
  apply (forRange_first_rejected VirtioVsock_case (fun _ => True)); auto.
  intros s _. known_keys. unfold VirtioVsock_case.
  repeat match goal with
         | H : String.eqb (key o) _ = false |- _ => rewrite H; clear H
         end.
  reflexivity.
Qed.

Lemma VirtioRng_rejects (dev : VirtioRng) (options : list Option) :
  options <> [] ->
  snd (VirtioRng_FromOptions dev options)
  = Some (fmt.Errorf
            ("Unknown options for virtio-rng devices: "
               ++ "[" ++ formatOptions true options ++ "]")).
Proof.
  intros H. destruct options as [|o rest]; [contradiction | reflexivity].
Qed.

(** C5, as the code has it. No device ignores an option key it does not
    know: a decode of a sequence that holds one fails.  For virtio-serial,
    virtio-fs, the storage configuration, usb-mass-storage and virtio-blk
    the error names the device and the first unknown key.  For virtio-net
    and virtio-vsock the options are checked in order and the first error
    wins: when an option before the unknown key has a value that is
    refused, the decode fails with that error; otherwise with the one
    that names the device and the unknown key.  virtio-rng fails on every
    sequence that is not empty, and its error lists the whole sequence. *)
Theorem unknown_option_is_rejected :
  forall pre o post,
    (Forall (fun p => known VirtioSerial_keys p = true) pre ->
     known VirtioSerial_keys o = false ->
     forall dev,
       snd (VirtioSerial_FromOptions dev (pre ++ o :: post)%list)
       = Some (fmt.Errorf ("Unknown option for virtio-serial devices: " ++ key o)))
    /\ (Forall (fun p => known VirtioFs_keys p = true) pre ->
        known VirtioFs_keys o = false ->
        forall dev,
          snd (VirtioFs_FromOptions dev (pre ++ o :: post)%list)
          = Some (fmt.Errorf ("Unknown option for virtio-fs devices: " ++ key o)))
    /\ (Forall (fun p => known StorageConfig_keys p = true) pre ->
        known StorageConfig_keys o = false ->
        (forall config,
            snd (StorageConfig_FromOptions config (pre ++ o :: post)%list)
            = Some (fmt.Errorf
                      ("Unknown option for " ++ DevName config ++ " devices: "
                         ++ key o)))
        /\ (forall dev,
              snd (USBMassStorage_FromOptions dev (pre ++ o :: post)%list)
              = Some (fmt.Errorf
                        ("Unknown option for " ++ DevName (UsbStorageConfig dev)
                           ++ " devices: " ++ key o))))
    /\ (Forall (fun p => known VirtioBlk_keys p = true) pre ->
        known VirtioBlk_keys o = false ->
        forall dev,
          snd (VirtioBlk_FromOptions dev (pre ++ o :: post)%list)
          = Some (fmt.Errorf
                    ("Unknown option for " ++ DevName (BlkStorageConfig dev)
                       ++ " devices: " ++ key o)))
    /\ (known VirtioNet_keys o = false ->
        forall dev,
          snd (VirtioNet_FromOptions dev (pre ++ o :: post)%list)
          = match snd (forRange VirtioNet_case dev pre) with
            | Some err => Some err
            | None =>
                Some (fmt.Errorf ("Unknown option for virtio-net devices: " ++ key o))
            end)
    /\ (known VirtioVsock_keys o = false ->
        forall dev,
          snd (VirtioVsock_FromOptions dev (pre ++ o :: post)%list)
          = match snd (VirtioVsock_FromOptions dev pre) with
            | Some err => Some err
            | None =>
                Some (fmt.Errorf ("Unknown option for virtio-vsock devices: " ++ key o))
            end)
    /\ (forall dev,
          snd (VirtioRng_FromOptions dev (pre ++ o :: post)%list)
          = Some (fmt.Errorf
                    ("Unknown options for virtio-rng devices: "
                       ++ "[" ++ formatOptions true (pre ++ o :: post)%list ++ "]"))).
Proof.
  intros pre o post.
  split; [|split; [|split; [|split; [|split; [|split]]]]].
  - intros Hpre Ho dev. apply VirtioSerial_rejects; assumption.
  - intros Hpre Ho dev. apply VirtioFs_rejects; assumption.
  - intros Hpre Ho. split.
    + intros config. apply StorageConfig_rejects; assumption.
    + intros dev. unfold USBMassStorage_FromOptions.
      pose proof (StorageConfig_rejects (UsbStorageConfig dev) pre o post Hpre Ho)
        as Hstorage.
      destruct (StorageConfig_FromOptions (UsbStorageConfig dev) _) as [config err].
      exact Hstorage.
  - intros Hpre Ho dev. apply VirtioBlk_rejects; assumption.
  - intros Ho dev. apply VirtioNet_rejects; assumption.
  - intros Ho dev. apply VirtioVsock_rejects; assumption.
  - intros dev. apply VirtioRng_rejects. destruct pre; discriminate.
Qed.

Lemma unknown_option_is_rejected_witness :
  let pre := [ {| key := "path"; value := "/img.raw" |};
               {| key := "deviceId"; value := "disk0" |} ] in
  let o := {| key := "readonly"; value := "" |} in
  let post := [ {| key := "path"; value := "/other.raw" |} ] in
  Forall (fun p => known VirtioBlk_keys p = true) pre
  /\ known VirtioBlk_keys o = false
  /\ snd (VirtioBlk_FromOptions virtioBlkNewEmpty (pre ++ o :: post)%list)
     = Some (fmt.Errorf "Unknown option for virtio-blk devices: readonly").
Proof.
  assert (Hpre : Forall (fun p => known VirtioBlk_keys p = true)
                   [ {| key := "path"; value := "/img.raw" |};
                     {| key := "deviceId"; value := "disk0" |} ]).
  { repeat constructor. }
  split; [exact Hpre|]. split; [reflexivity|].
  exact (proj1 (proj2 (proj2 (proj2
           (unknown_option_is_rejected
              [ {| key := "path"; value := "/img.raw" |};
                {| key := "deviceId"; value := "disk0" |} ]
              {| key := "readonly"; value := "" |}
              [ {| key := "path"; value := "/other.raw" |} ]))))
           Hpre eq_refl virtioBlkNewEmpty).
Defined.

(** C5, against the claim as written: a vsock decode of a sequence with
    an unknown key does not always fail with the unknown-option error.
    Here an unparsable port comes first and the decode fails with
    [Atoi]'s error. *)
Lemma unknown_option_not_always_reported :
  let dev := {| Port := 0; SocketURL := ""; Listen := false |} in
  let options := [ {| key := "port"; value := "abc" |};
                   {| key := "bogus"; value := "" |} ] in
  known VirtioVsock_keys {| key := "bogus"; value := "" |} = false
  /\ snd (VirtioVsock_FromOptions dev options)
     = Some (NumError "Atoi" "abc" "invalid syntax")
  /\ snd (VirtioVsock_FromOptions dev options)
     <> Some (fmt.Errorf "Unknown option for virtio-vsock devices: bogus").
Proof.
  split; [reflexivity|]. split; [reflexivity | discriminate].
Qed.

(** ** The dispatcher *)

Lemma SplitN_whole (s : string) (sep : ascii) (n : nat) :
  hasByte sep s = false -> strings.SplitN s sep (S n) = [s].
Proof.
  intros H. destruct n as [|n]; simpl; [reflexivity|].
  rewrite (cut_absent _ _ H). reflexivity.
Qed.

Lemma SplitN_first (a b : string) (sep : ascii) (n : nat) :
  hasByte sep a = false ->
  strings.SplitN (a ++ String sep b) sep (S (S n)) = a :: strings.SplitN b sep (S n).
Proof.
  intros H. cbn [strings.SplitN]. rewrite (cut_first _ _ _ H). reflexivity.
Qed.

Lemma cut_shortens (s : string) (sep : ascii) (a b : string) :
  strings.cut s sep = Some (a, b) -> (String.length b < String.length s)%nat.
Proof.
  revert a. induction s as [|c r IH]; intros a H; simpl in *; [discriminate|].
  destruct (Ascii.eqb c sep).
  - injection H as <- <-. lia.
  - destruct (strings.cut r sep) as [[a' b']|]; [|discriminate].
    injection H as <- <-. specialize (IH a' eq_refl). lia.
Qed.

(** Past the length of the string the piece count no longer matters. *)
Lemma SplitN_enough (sep : ascii) (n : nat) :
  forall m s,
  (String.length s < n)%nat -> (String.length s < m)%nat ->
  strings.SplitN s sep n = strings.SplitN s sep m.
Proof.
  induction n as [|n IH]; intros m s Hn Hm; [lia|].
  destruct m as [|m]; [lia|].
  cbn [strings.SplitN].
  destruct (strings.cut s sep) as [[a b]|] eqn:Hcut.
  - pose proof (cut_shortens _ _ _ _ Hcut) as Hb.
    destruct n as [|n]; [lia|]. destruct m as [|m]; [lia|].
    f_equal. apply IH; lia.
  - destruct n, m; reflexivity.
Qed.

Lemma append_length (a b : string) :
  String.length (a ++ b) = (String.length a + String.length b)%nat.
Proof. induction a as [|c a IH]; simpl; [reflexivity | rewrite IH; reflexivity]. Qed.

(** [Split] cuts at every separator: a string without one is its only
    piece, and the first piece of any other string is what precedes the
    first separator. *)
Lemma Split_whole (s : string) (sep : ascii) :
  hasByte sep s = false -> strings.Split s sep = [s].
Proof. intros H. apply SplitN_whole. exact H. Qed.

Lemma Split_first (a b : string) (sep : ascii) :
  hasByte sep a = false ->
  strings.Split (a ++ String sep b) sep = a :: strings.Split b sep.
Proof.
  intros H. unfold strings.Split.
  rewrite append_length. simpl String.length.
  replace (S (String.length a + S (String.length b)))
    with (S (S (String.length a + String.length b))) by lia.
  rewrite (SplitN_first _ _ _ _ H). f_equal.
  apply SplitN_enough; lia.
Qed.

Lemma Split_nonempty (s : string) (sep : ascii) :
  exists first rest, strings.Split s sep = first :: rest.
Proof.
  unfold strings.Split. cbn [strings.SplitN].
  destruct (String.length s); [eexists; eexists; reflexivity|].
  destruct (strings.cut s sep) as [[a b]|]; eexists; eexists; reflexivity.
Qed.

Lemma deviceFromCmdLine_unknown_tag (deviceOpts tag : string) (rest : list string) :
  strings.Split deviceOpts "," = tag :: rest ->
  ~ In tag deviceTags ->
  deviceFromCmdLine deviceOpts
  = Returns (None, Some (fmt.Errorf ("unknown device type: " ++ tag))).
Proof.
  intros Hsplit Htag. unfold deviceFromCmdLine. rewrite Hsplit.
  cbn [List.length Nat.eqb index nth_error bind].
  repeat match goal with
         | |- context [String.eqb tag ?t] =>
             let E := fresh "E" in
             destruct (String.eqb tag t) eqn:E;
             [ exfalso; apply Htag; apply String.eqb_eq in E; rewrite E;
               unfold deviceTags; simpl; tauto | ]
         end.
  reflexivity.
Qed.

Lemma deviceFromCmdLine_returns (deviceOpts : string) :
  exists r, deviceFromCmdLine deviceOpts = Returns r.
Proof.
  unfold deviceFromCmdLine.
  destruct (Split_nonempty deviceOpts ",") as [tag [rest Hsplit]].
  rewrite Hsplit. cbn [List.length Nat.eqb index nth_error bind].
  match goal with
  | |- context [match ?d with Some _ => _ | None => _ end] => destruct d as [dev|]
  end; [|eexists; reflexivity].
  cbn [sliceFrom List.length Nat.leb skipn bind].
  destruct (strvToOptions_range_spec rest []) as [os [Hrun _]].
  unfold strvToOptions. rewrite Hrun. cbn [bind].
  destruct (FromOptions dev ([] ++ os)%list) as [dev' [err|]]; eexists; reflexivity.
Qed.

(** C6. A device spec whose first comma-delimited segment is none of the
    seven device tags is refused with the unknown-device-type error that
    names the segment, and no device is returned; this covers the spec
    that is the tag alone and the one with further segments.  The
    dispatcher returns on every input: no index it takes is out of
    range. *)
Theorem unknown_device_type_is_rejected :
  (forall tag,
      hasByte "," tag = false -> ~ In tag deviceTags ->
      deviceFromCmdLine tag
      = Returns (None, Some (fmt.Errorf ("unknown device type: " ++ tag)))
      /\ forall rest,
          deviceFromCmdLine (tag ++ String "," rest)
          = Returns (None, Some (fmt.Errorf ("unknown device type: " ++ tag))))
  /\ (forall deviceOpts, exists r, deviceFromCmdLine deviceOpts = Returns r).
Proof.
  split; [|exact deviceFromCmdLine_returns].
  intros tag Hcomma Htag. split.
  - apply (deviceFromCmdLine_unknown_tag tag tag []); [|exact Htag].
    apply Split_whole. exact Hcomma.
  - intros rest.
    apply (deviceFromCmdLine_unknown_tag _ tag (strings.Split rest ","));
      [|exact Htag].
    apply Split_first. exact Hcomma.
Qed.

Lemma unknown_device_type_is_rejected_witness :
  hasByte "," "virtio-gpu" = false
  /\ ~ In "virtio-gpu" deviceTags
  /\ deviceFromCmdLine "virtio-gpu,width=800,height=600"
     = Returns (None, Some (fmt.Errorf "unknown device type: virtio-gpu")).
Proof.
  assert (Htag : ~ In "virtio-gpu" deviceTags).
  { unfold deviceTags. simpl. intros H.
    repeat (destruct H as [H | H]; [discriminate|]). exact H. }
  split; [reflexivity|]. split; [exact Htag|].
  exact (proj2 (proj1 unknown_device_type_is_rejected "virtio-gpu" eq_refl Htag)
           "width=800,height=600").
Defined.

(** ** The empty-option-list error *)

Lemma forRange_error {T : Type} (body : T -> Option -> T * option error)
  (options : list Option) :
  forall state err,
  snd (forRange body state options) = Some err ->
  exists state' o, In o options /\ snd (body state' o) = Some err.
Proof.
  induction options as [|o rest IH]; intros state err H; simpl in *.
  - discriminate.
  - destruct (body state o) as [state' [e|]] eqn:Hbody; simpl in *.
    + exists state, o. rewrite Hbody. auto.
    + destruct (IH _ _ H) as [s [o' [Hin Hs]]]. exists s, o'. auto.
Qed.

Lemma Atoi_error (s : string) (err : error) :
  snd (strconv.Atoi s) = Some err -> exists msg, err = NumError "Atoi" s msg.
Proof.
  assert (Hsyntax : forall (z : Z) msg,
             snd (z, Some (NumError "Atoi" s msg)) = Some err ->
             exists msg, err = NumError "Atoi" s msg).
  { intros z msg H. injection H as <-. eexists. reflexivity. }
  unfold strconv.Atoi. cbv zeta.
  destruct s as [|c r]; [apply Hsyntax|].
  destruct (if Ascii.eqb c "-" || Ascii.eqb c "+" then r else String c r)
    as [|b0 b1]; [apply Hsyntax|].
  destruct (strconv.digits 0 (String b0 b1)) as [n|]; [|apply Hsyntax].
  destruct (_ <? minInt)%Z; [apply Hsyntax|].
  destruct (maxInt <? _)%Z; [apply Hsyntax | discriminate].
Qed.

Lemma ParseMAC_error (s : string) (err : error) :
  snd (net.ParseMAC s) = Some err -> err = AddrError "invalid MAC address" s.
Proof.
  assert (Hbad : forall hw : net.HardwareAddr,
             snd (hw, Some (AddrError "invalid MAC address" s)) = Some err ->
             err = AddrError "invalid MAC address" s).
  { intros hw H. injection H as <-. reflexivity. }
  unfold net.ParseMAC. cbv zeta.
  destruct (String.length s <? 14)%nat; [apply Hbad|].
  destruct (Ascii.eqb (net.at_ s 2) ":" || Ascii.eqb (net.at_ s 2) "-").
  - destruct (negb _); [apply Hbad|].
    destruct (negb _); [apply Hbad|].
    destruct (net.groups3 _ _ _); [discriminate | apply Hbad].
  - destruct (Ascii.eqb (net.at_ s 4) "."); [|apply Hbad].
    destruct (negb _); [apply Hbad|].
    destruct (negb _); [apply Hbad|].
    destruct (net.groups5 _ _ _); [discriminate | apply Hbad].
Qed.

(** Breaks a [switch] of a [FromOptions] into its cases and closes the
    ones that end with an error other than [emptyOptionList]. *)
Ltac other_error H :=
  repeat match type of H with
         | context [String.eqb ?a ?b] => destruct (String.eqb a b)
         end;
  cbn [snd fmt.Errorf String.append negb] in H;
  try discriminate H.

Lemma FromOptions_other_error (dev : VirtioDevice) (options : list Option) :
  snd (FromOptions dev options) <> Some emptyOptionList.
Proof.
  unfold emptyOptionList.
  destruct dev as [d|d|d|d|d|d|d]; simpl; intros H.
  - unfold VirtioBlk_FromOptions in H.
    destruct (fst (forRange VirtioBlk_case (d, []) options)) as [d1 unhandled].
    destruct (StorageConfig_FromOptions (BlkStorageConfig d1) unhandled)
      as [config err] eqn:Hcfg.
    simpl in H. subst err.
    destruct (forRange_error _ _ _ _ (f_equal snd Hcfg)) as [s [o [_ Hs]]].
    unfold StorageConfig_case in Hs. other_error Hs.
  - destruct (forRange_error _ _ _ _ H) as [s [o [_ Hs]]].
    unfold VirtioFs_case in Hs. other_error Hs.
  - unfold VirtioNet_FromOptions in H.
    destruct (forRange VirtioNet_case d options) as [d1 [err|]] eqn:Hrun.
    + simpl in H. injection H as ->.
      destruct (forRange_error _ _ _ _ (f_equal snd Hrun)) as [s [o [_ Hs]]].
      unfold VirtioNet_case in Hs. other_error Hs.
      * destruct (net.ParseMAC (value o)) as [mac [e|]] eqn:Hmac;
          cbn [snd] in Hs; [|discriminate].
        injection Hs as ->.
        pose proof (ParseMAC_error _ _ (f_equal snd Hmac)). discriminate.
      * destruct (strconv.Atoi (value o)) as [fd [e|]] eqn:Hfd;
          cbn [snd] in Hs; [|discriminate].
        injection Hs as ->.
        destruct (Atoi_error _ _ (f_equal snd Hfd)). discriminate.
    + simpl in H. unfold validate in H.
      destruct (Nat d1 && negb (isNil (Socket d1))); [discriminate|].
      destruct (negb (Nat d1) && isNil (Socket d1)); discriminate.
  - unfold VirtioRng_FromOptions in H.
    destruct (negb (List.length options =? 0)%nat); discriminate.
  - destruct (forRange_error _ _ _ _ H) as [s [o [_ Hs]]].
    unfold VirtioSerial_case in Hs. other_error Hs.
  - destruct (forRange_error _ _ _ _ H) as [s [o [_ Hs]]].
    unfold VirtioVsock_case in Hs. other_error Hs.
    destruct (strconv.Atoi (value o)) as [port [e|]] eqn:Hport;
      cbn [snd] in Hs; [|discriminate].
    injection Hs as ->.
    destruct (Atoi_error _ _ (f_equal snd Hport)). discriminate.
  - unfold USBMassStorage_FromOptions in H.
    destruct (StorageConfig_FromOptions (UsbStorageConfig d) options)
      as [config err] eqn:Hcfg.
    simpl in H. subst err.
    destruct (forRange_error _ _ _ _ (f_equal snd Hcfg)) as [s [o [_ Hs]]].
    unfold StorageConfig_case in Hs. other_error Hs.
Qed.

(** C8. The empty spec is refused as an unknown device type with an empty
    name, not with the empty-option-list error: [Split] gives at least
    one segment for every string (one empty segment for the empty one),
    so the test that guards the empty-option-list error never holds, and
    the dispatcher returns that error for no input at all. *)
Theorem empty_spec_is_an_unknown_device_type :
  strings.Split "" "," = [""]
  /\ deviceFromCmdLine ""
     = Returns (None, Some (fmt.Errorf "unknown device type: "))
  /\ (forall deviceOpts,
        (List.length (strings.Split deviceOpts ",") =? 0)%nat = false)
  /\ (forall deviceOpts dev,
        deviceFromCmdLine deviceOpts <> Returns (dev, Some emptyOptionList)).
Proof.
  split; [reflexivity|]. split; [reflexivity|]. split.
  - intros deviceOpts.
    destruct (Split_nonempty deviceOpts ",") as [tag [rest ->]]. reflexivity.
  - intros deviceOpts dev0. unfold deviceFromCmdLine.
    destruct (Split_nonempty deviceOpts ",") as [tag [rest ->]].
    cbn [List.length Nat.eqb index nth_error bind].
    match goal with
    | |- context [match ?d with Some _ => _ | None => _ end] => destruct d as [dev|]
    end; [|discriminate].
    cbn [sliceFrom List.length Nat.leb skipn bind].
    destruct (strvToOptions_range_spec rest []) as [os [Hrun _]].
    unfold strvToOptions. rewrite Hrun. cbn [bind].
    pose proof (FromOptions_other_error dev ([] ++ os)%list) as Hother.
    destruct (FromOptions dev ([] ++ os)%list) as [dev' [err|]];
      simpl in Hother; [|discriminate].
    intros H. injection H as _ ->. contradiction.
Qed.

(** * Further properties *)

(** ** Splitting and tokenizing encoded specs *)

Lemma hasByte_append (c : ascii) (a b : string) :
  hasByte c (a ++ b) = hasByte c a || hasByte c b.
Proof.
  induction a as [|x a IH]; simpl; [reflexivity|].
  rewrite IH. apply orb_assoc.
Qed.

Lemma append_associative (a b c : string) : (a ++ b) ++ c = a ++ b ++ c.
Proof. induction a as [|x a IH]; simpl; [reflexivity | rewrite IH; reflexivity]. Qed.

Lemma eqb_empty_false (s : string) : s <> "" -> String.eqb s "" = false.
Proof. intros H. apply String.eqb_neq. exact H. Qed.

(** What the dispatcher does once the segments and their options are
    known. *)
Lemma deviceFromCmdLine_dispatch (deviceOpts tag : string) (segs : list string)
  (os : list Option) :
  strings.Split deviceOpts "," = tag :: segs ->
  strvToOptions segs = Returns os ->
  deviceFromCmdLine deviceOpts
  = match
      (if String.eqb tag "virtio-blk" then Some (OfVirtioBlk virtioBlkNewEmpty)
       else if String.eqb tag "virtio-fs"
       then Some (OfVirtioFs {| SharedDir := ""; MountTag := "" |})
       else if String.eqb tag "virtio-net"
       then Some (OfVirtioNet {| Nat := false; MacAddress := []; Socket := None |})
       else if String.eqb tag "virtio-rng" then Some (OfVirtioRng Build_VirtioRng)
       else if String.eqb tag "virtio-serial"
       then Some (OfVirtioSerial {| LogFile := "" |})
       else if String.eqb tag "virtio-vsock"
       then Some (OfVirtioVsock {| Port := 0; SocketURL := ""; Listen := false |})
       else if String.eqb tag "usb-mass-storage"
       then Some (OfUSBMassStorage usbMassStorageNewEmpty)
       else None)
    with
    | None => Returns (None, Some (fmt.Errorf ("unknown device type: " ++ tag)))
    | Some dev =>
        match FromOptions dev os with
        | (_, Some err) => Returns (None, Some err)
        | (dev, None) => Returns (Some dev, None)
        end
    end.
Proof.
  intros Hsplit Hopts. unfold deviceFromCmdLine. rewrite Hsplit.
  cbn [List.length Nat.eqb index nth_error bind].
  match goal with
  | |- context [match ?d with Some _ => _ | None => _ end] => destruct d as [dev|]
  end; [|reflexivity].
  cbn [sliceFrom List.length Nat.leb skipn bind]. rewrite Hopts. reflexivity.
Qed.

(** A segment [k=v] whose key holds no [=] is the option [(k, v)]. *)
Lemma strvToOptions_range_pair (k v : string) (rest : list string)
  (parsedOpts : list Option) :
  hasByte "=" k = false -> k <> "" ->
  strvToOptions_range parsedOpts ((k ++ String "=" v) :: rest)
  = strvToOptions_range (parsedOpts ++ [ {| key := k; value := v |} ])%list rest.
Proof.
  intros Hk Hne. cbn [strvToOptions_range].
  destruct k as [|c k]; [contradiction|].
  cbn [String.append String.length Nat.eqb].
  change (String c (k ++ String "=" v)) with (String c k ++ String "=" v).
  rewrite (strToOption_pair _ _ Hk). reflexivity.
Qed.

(** A segment without [=] that is not empty is a bare key. *)
Lemma strvToOptions_range_bare (k : string) (rest : list string)
  (parsedOpts : list Option) :
  hasByte "=" k = false -> k <> "" ->
  strvToOptions_range parsedOpts (k :: rest)
  = strvToOptions_range (parsedOpts ++ [ {| key := k; value := "" |} ])%list rest.
Proof.
  intros Hk Hne. cbn [strvToOptions_range].
  destruct k as [|c k]; [contradiction|].
  cbn [String.length Nat.eqb].
  rewrite (strToOption_bare _ Hk). reflexivity.
Qed.

(** ** Printing and parsing decimal numbers *)

Lemma digits_of_uint_acc (d : Decimal.uint) :
  forall acc : positive,
  strconv.digits (Z.pos acc) (NilEmpty.string_of_uint d)
  = Some (Z.pos (Pos.of_uint_acc d acc)).
Proof.
  induction d; intros acc; cbn [NilEmpty.string_of_uint Pos.of_uint_acc];
    [reflexivity | ..];
    cbn [strconv.digits]; change (strconv.isDigit _) with true; cbv iota;
    rewrite <- IHd; f_equal;
    match goal with
    | |- context [Z.of_nat ?e] =>
        let v := eval vm_compute in (Z.of_nat e) in change (Z.of_nat e) with v
    end;
    lia.
Qed.

Lemma digits_of_uint (d : Decimal.uint) :
  strconv.digits 0 (NilEmpty.string_of_uint d) = Some (Z.of_N (Pos.of_uint d)).
Proof.
  induction d; cbn [NilEmpty.string_of_uint Pos.of_uint];
    [reflexivity | exact IHd | ..];
    cbn [strconv.digits]; change (strconv.isDigit _) with true; cbv iota;
    cbn [Z.of_N]; rewrite <- digits_of_uint_acc; reflexivity.
Qed.

Lemma digits_fmt_d (n : Z) :
  (0 <= n)%Z -> strconv.digits 0 (fmt.d n) = Some n.
Proof.
  intros H. destruct n as [|p|p]; [reflexivity | | lia].
  unfold fmt.d. cbn [Z.to_int NilEmpty.string_of_int].
  rewrite digits_of_uint, DecimalPos.Unsigned.of_to. reflexivity.
Qed.

Lemma fmt_d_not_empty (n : Z) : (0 <= n)%Z -> fmt.d n <> "".
Proof.
  intros H. destruct n as [|p|p]; [discriminate | | lia].
  unfold fmt.d. cbn [Z.to_int NilEmpty.string_of_int].
  pose proof (DecimalPos.Unsigned.to_uint_nonnil p) as Hnil.
  destruct (Pos.to_uint p); [contradiction | ..]; discriminate.
Qed.

Lemma allDigits_no (c : ascii) (s : string) :
  strconv.isDigit c = false -> allDigits s = true -> hasByte c s = false.
Proof.
  intros Hc. induction s as [|x r IH]; simpl; [reflexivity|].
  intros H. apply andb_true_iff in H as [Hx Hr].
  rewrite (IH Hr), orb_false_r.
  destruct (Ascii.eqb x c) eqn:E; [|reflexivity].
  apply Ascii.eqb_eq in E. subst x. congruence.
Qed.

Lemma fmt_d_no_comma (n : Z) : (0 <= n)%Z -> hasByte "," (fmt.d n) = false.
Proof.
  intros H. apply allDigits_no; [reflexivity|].
  eapply digits_allDigits. apply digits_fmt_d. exact H.
Qed.

Lemma digits_lower_bound (s : string) :
  forall acc n, (0 <= acc)%Z -> strconv.digits acc s = Some n -> (0 <= n)%Z.
Proof.
  induction s as [|c r IH]; intros acc n Hacc H; simpl in H.
  - injection H as <-. exact Hacc.
  - destruct (strconv.isDigit c); [|discriminate].
    eapply IH; [|exact H]. lia.
Qed.

(** [Atoi] on a string of digits: the number they write, or a range
    error when it does not fit an [int]. *)
Lemma Atoi_digits (s : string) (n : Z) :
  s <> "" -> strconv.digits 0 s = Some n ->
  strconv.Atoi s
  = if (n <=? maxInt)%Z then (n, None)
    else (maxInt, Some (NumError "Atoi" s "value out of range")).
Proof.
  intros Hne Hd. destruct s as [|c r]; [contradiction|].
  assert (Hc : strconv.isDigit c = true).
  { simpl in Hd. destruct (strconv.isDigit c); [reflexivity | discriminate]. }
  assert (Hminus : Ascii.eqb c "-" = false).
  { destruct (Ascii.eqb c "-") eqn:E; [|reflexivity].
    apply Ascii.eqb_eq in E. subst c. discriminate. }
  assert (Hplus : Ascii.eqb c "+" = false).
  { destruct (Ascii.eqb c "+") eqn:E; [|reflexivity].
    apply Ascii.eqb_eq in E. subst c. discriminate. }
  pose proof (digits_lower_bound _ _ _ (Z.le_refl 0) Hd) as Hn.
  unfold strconv.Atoi. cbv zeta. rewrite Hminus, Hplus. cbn [orb].
  rewrite Hd.
  destruct (n <? minInt)%Z eqn:Hlo; [apply Z.ltb_lt in Hlo; unfold minInt in *; lia|].
  destruct (maxInt <? n)%Z eqn:Hhi.
  - apply Z.ltb_lt in Hhi.
    destruct (n <=? maxInt)%Z eqn:Hle; [apply Z.leb_le in Hle; lia | reflexivity].
  - apply Z.ltb_ge in Hhi.
    destruct (n <=? maxInt)%Z eqn:Hle; [reflexivity | apply Z.leb_gt in Hle; lia].
Qed.

Lemma Atoi_fmt_d (n : Z) :
  (0 <= n <= maxInt)%Z -> strconv.Atoi (fmt.d n) = (n, None).
Proof.
  intros [Hlo Hhi].
  rewrite (Atoi_digits _ n (fmt_d_not_empty n Hlo) (digits_fmt_d n Hlo)).
  destruct (n <=? maxInt)%Z eqn:Hle; [reflexivity | apply Z.leb_gt in Hle; lia].
Qed.

Lemma Atoi_fmt_d_large (n : Z) :
  (maxInt < n)%Z ->
  strconv.Atoi (fmt.d n)
  = (maxInt, Some (NumError "Atoi" (fmt.d n) "value out of range")).
Proof.
  intros H. assert (Hlo : (0 <= n)%Z) by (unfold maxInt in H; lia).
  rewrite (Atoi_digits _ n (fmt_d_not_empty n Hlo) (digits_fmt_d n Hlo)).
  destruct (n <=? maxInt)%Z eqn:Hle; [apply Z.leb_le in Hle; lia | reflexivity].
Qed.

(** ** Printing and parsing hardware addresses *)

Lemma hex_byte (b : Z) :
  (0 <= b < 256)%Z ->
  let hi := net.at_ net.hexDigit (Z.to_nat (Z.shiftr b 4)) in
  let lo := net.at_ net.hexDigit (Z.to_nat (Z.land b 15)) in
  net.xtoi (String hi (String lo "")) = (b, 2%nat, true)
  /\ Ascii.eqb hi "," = false /\ Ascii.eqb lo "," = false.
Proof.
  intros Hb.
  set (check := fun n : nat =>
         let b := Z.of_nat n in
         let hi := net.at_ net.hexDigit (Z.to_nat (Z.shiftr b 4)) in
         let lo := net.at_ net.hexDigit (Z.to_nat (Z.land b 15)) in
         let '(v, i, ok) := net.xtoi (String hi (String lo "")) in
         (v =? b)%Z && (i =? 2)%nat && ok
         && negb (Ascii.eqb hi ",") && negb (Ascii.eqb lo ",")).
  assert (Hall : forallb check (seq 0 256) = true) by (vm_compute; reflexivity).
  rewrite forallb_forall in Hall.
  specialize (Hall (Z.to_nat b)).
  assert (Hin : In (Z.to_nat b) (seq 0 256)) by (apply in_seq; lia).
  specialize (Hall Hin). unfold check in Hall.
  rewrite Z2Nat.id in Hall by lia. cbv zeta in Hall. cbv zeta.
  destruct (net.xtoi _) as [[v i] ok].
  repeat (apply andb_true_iff in Hall as [Hall ?]).
  apply Z.eqb_eq in Hall. apply Nat.eqb_eq in H2. subst.
  repeat split; try reflexivity; apply negb_true_iff; assumption.
Qed.

Lemma substring_whole (s : string) : String.substring 0 (String.length s) s = s.
Proof. induction s as [|c s IH]; simpl; [reflexivity | rewrite IH; reflexivity]. Qed.

Lemma hwString_next (b : Z) (r : net.HardwareAddr) :
  net.hwString false (b :: r) = String ":" (net.hwString true (b :: r)).
Proof. reflexivity. Qed.

Lemma groups3_hwString (mac : net.HardwareAddr) :
  Forall (fun b => (0 <= b < 256)%Z) mac ->
  mac <> [] ->
  net.groups3 (net.hwString true mac) ":" (List.length mac) = Some mac.
Proof.
  induction mac as [|b r IH]; intros Hbytes Hne; [contradiction|].
  inversion Hbytes as [|? ? Hb Hr]; subst.
  destruct (hex_byte b Hb) as [Hx _]. cbv zeta in Hx.
  cbn [List.length net.groups3 net.hwString String.append].
  destruct r as [|b' r'].
  - unfold net.xtoi2.
    cbn [net.hwString String.length Nat.ltb Nat.leb andb String.substring].
    rewrite Hx. cbn [andb Nat.eqb net.groups3].
    rewrite Z.mod_small by lia. reflexivity.
  - rewrite hwString_next. unfold net.xtoi2.
    cbn [String.length Nat.ltb Nat.leb andb String.substring net.at_ String.get
         Ascii.eqb Bool.eqb negb].
    rewrite Hx. cbn [andb Nat.eqb].
    unfold net.drop.
    cbn [String.length Nat.sub String.substring].
    rewrite Nat.sub_0_r, substring_whole.
    rewrite IH; [|exact Hr|discriminate].
    rewrite Z.mod_small by lia. reflexivity.
Qed.

Lemma hwString_length (mac : net.HardwareAddr) :
  mac <> [] ->
  S (String.length (net.hwString true mac)) = (3 * List.length mac)%nat.
Proof.
  induction mac as [|b r IH]; intros Hne; [contradiction|].
  cbn [net.hwString String.append String.length List.length].
  destruct r as [|b' r']; [reflexivity|].
  rewrite hwString_next. cbn [String.length].
  rewrite IH by discriminate. cbn [List.length]. lia.
Qed.

Lemma hwString_no_comma (mac : net.HardwareAddr) :
  Forall (fun b => (0 <= b < 256)%Z) mac ->
  forall first, hasByte "," (net.hwString first mac) = false.
Proof.
  induction 1 as [|b r Hb Hr IH]; intros first; [reflexivity|].
  destruct (hex_byte b Hb) as [_ [Hhi Hlo]]. cbv zeta in Hhi, Hlo.
  cbn [net.hwString]. rewrite !hasByte_append. cbn [hasByte].
  rewrite Hhi, Hlo, IH. destruct first; reflexivity.
Qed.

(** [ParseMAC] reads back what [String] prints. *)
Lemma ParseMAC_String (mac : net.HardwareAddr) :
  validMAC mac -> net.ParseMAC (net.String_ mac) = (mac, None).
Proof.
  intros [Hlen Hbytes]. unfold net.String_.
  assert (Hne : mac <> []) by (intros ->; simpl in Hlen; lia).
  pose proof (hwString_length mac Hne) as Hs.
  pose proof (groups3_hwString mac Hbytes Hne) as Hg.
  assert (Hsep : net.at_ (net.hwString true mac) 2 = ":"%char).
  { destruct mac as [|b1 [|b2 r]]; [contradiction | simpl in Hlen; lia |].
    reflexivity. }
  unfold net.ParseMAC. cbv zeta. rewrite Hsep.
  destruct Hlen as [Hl | [Hl | Hl]]; rewrite Hl in Hs, Hg.
  - replace (String.length (net.hwString true mac)) with 17%nat by lia.
    cbv - [net.groups3 net.hwString]. rewrite Hg. reflexivity.
  - replace (String.length (net.hwString true mac)) with 23%nat by lia.
    cbv - [net.groups3 net.hwString]. rewrite Hg. reflexivity.
  - replace (String.length (net.hwString true mac)) with 59%nat by lia.
    cbv - [net.groups3 net.hwString]. rewrite Hg. reflexivity.
Qed.

(** ** Decoding the specs the encoders write *)

(** Each lemma takes the value token one [ToCmdLine] writes, for field
    values without a comma, and gives what the dispatcher decodes it
    to. *)

Lemma decode_serial_spec (logFile : string) :
  hasByte "," logFile = false ->
  deviceFromCmdLine ("virtio-serial,logFilePath=" ++ logFile)
  = Returns (Some (OfVirtioSerial {| LogFile := logFile |}), None).
Proof.
  intros Hcomma.
  rewrite (deviceFromCmdLine_dispatch _ "virtio-serial" ["logFilePath=" ++ logFile]
             [ {| key := "logFilePath"; value := logFile |} ]).
  - reflexivity.
  - change ("virtio-serial,logFilePath=" ++ logFile)
      with ("virtio-serial" ++ String "," ("logFilePath=" ++ logFile)).
    rewrite Split_first by reflexivity.
    rewrite Split_whole; [reflexivity | exact Hcomma].
  - unfold strvToOptions.
    change ("logFilePath=" ++ logFile) with ("logFilePath" ++ String "=" logFile).
    rewrite strvToOptions_range_pair; [reflexivity | reflexivity | discriminate].
Qed.

Lemma decode_fs_spec (sharedDir : string) :
  hasByte "," sharedDir = false ->
  deviceFromCmdLine ("virtio-fs,sharedDir=" ++ sharedDir)
  = Returns (Some (OfVirtioFs {| SharedDir := sharedDir; MountTag := "" |}), None).
Proof.
  intros Hd.
  rewrite (deviceFromCmdLine_dispatch _ "virtio-fs" ["sharedDir=" ++ sharedDir]
             [ {| key := "sharedDir"; value := sharedDir |} ]).
  - reflexivity.
  - change ("virtio-fs,sharedDir=" ++ sharedDir)
      with ("virtio-fs" ++ String "," ("sharedDir=" ++ sharedDir)).
    rewrite Split_first by reflexivity.
    rewrite Split_whole; [reflexivity | exact Hd].
  - unfold strvToOptions.
    change ("sharedDir=" ++ sharedDir) with ("sharedDir" ++ String "=" sharedDir).
    rewrite strvToOptions_range_pair; [reflexivity | reflexivity | discriminate].
Qed.

Lemma decode_fs_spec_tag (sharedDir mountTag : string) :
  hasByte "," sharedDir = false -> hasByte "," mountTag = false ->
  deviceFromCmdLine ("virtio-fs,sharedDir=" ++ sharedDir ++ ",mountTag=" ++ mountTag)
  = Returns (Some (OfVirtioFs {| SharedDir := sharedDir; MountTag := mountTag |}),
             None).
Proof.
  intros Hd Ht.
  rewrite (deviceFromCmdLine_dispatch _ "virtio-fs"
             ["sharedDir=" ++ sharedDir; "mountTag=" ++ mountTag]
             [ {| key := "sharedDir"; value := sharedDir |};
               {| key := "mountTag"; value := mountTag |} ]).
  - reflexivity.
  - change ("virtio-fs,sharedDir=" ++ sharedDir ++ ",mountTag=" ++ mountTag)
      with ("virtio-fs"
              ++ String ","
                   (("sharedDir=" ++ sharedDir) ++ String "," ("mountTag=" ++ mountTag))).
    rewrite Split_first by reflexivity.
    rewrite Split_first by exact Hd.
    rewrite Split_whole; [reflexivity | exact Ht].
  - unfold strvToOptions.
    change ("sharedDir=" ++ sharedDir) with ("sharedDir" ++ String "=" sharedDir).
    change ("mountTag=" ++ mountTag) with ("mountTag" ++ String "=" mountTag).
    rewrite !strvToOptions_range_pair;
      [reflexivity | reflexivity | discriminate | reflexivity | discriminate].
Qed.

Lemma decode_blk_spec (imagePath : string) :
  hasByte "," imagePath = false ->
  deviceFromCmdLine ("virtio-blk,path=" ++ imagePath)
  = Returns (Some (OfVirtioBlk
                     {| BlkStorageConfig :=
                          {| DevName := "virtio-blk"; ImagePath := imagePath;
                             ReadOnly := false |};
                        DeviceIdentifier := "" |}), None).
Proof.
  intros Hpath.
  rewrite (deviceFromCmdLine_dispatch _ "virtio-blk" ["path=" ++ imagePath]
             [ {| key := "path"; value := imagePath |} ]).
  - reflexivity.
  - change ("virtio-blk,path=" ++ imagePath)
      with ("virtio-blk" ++ String "," ("path=" ++ imagePath)).
    rewrite Split_first by reflexivity.
    rewrite Split_whole; [reflexivity | exact Hpath].
  - unfold strvToOptions.
    change ("path=" ++ imagePath) with ("path" ++ String "=" imagePath).
    rewrite strvToOptions_range_pair; [reflexivity | reflexivity | discriminate].
Qed.

Lemma decode_blk_spec_id (imagePath devId : string) :
  hasByte "," imagePath = false -> hasByte "," devId = false ->
  deviceFromCmdLine ("virtio-blk,path=" ++ imagePath ++ ",deviceId=" ++ devId)
  = Returns (Some (OfVirtioBlk
                     {| BlkStorageConfig :=
                          {| DevName := "virtio-blk"; ImagePath := imagePath;
                             ReadOnly := false |};
                        DeviceIdentifier := devId |}), None).
Proof.
  intros Hpath Hid.
  rewrite (deviceFromCmdLine_dispatch _ "virtio-blk"
             ["path=" ++ imagePath; "deviceId=" ++ devId]
             [ {| key := "path"; value := imagePath |};
               {| key := "deviceId"; value := devId |} ]).
  - reflexivity.
  - change ("virtio-blk,path=" ++ imagePath ++ ",deviceId=" ++ devId)
      with ("virtio-blk"
              ++ String "," (("path=" ++ imagePath)
                               ++ String "," ("deviceId=" ++ devId))).
    rewrite Split_first by reflexivity.
    rewrite Split_first by exact Hpath.
    rewrite Split_whole; [reflexivity | exact Hid].
  - unfold strvToOptions.
    change ("path=" ++ imagePath) with ("path" ++ String "=" imagePath).
    change ("deviceId=" ++ devId) with ("deviceId" ++ String "=" devId).
    rewrite !strvToOptions_range_pair;
      [reflexivity | reflexivity | discriminate | reflexivity | discriminate].
Qed.

Lemma decode_usb_spec (imagePath : string) :
  hasByte "," imagePath = false ->
  deviceFromCmdLine ("usb-mass-storage,path=" ++ imagePath)
  = Returns (Some (OfUSBMassStorage
                     {| UsbStorageConfig :=
                          {| DevName := "usb-mass-storage"; ImagePath := imagePath;
                             ReadOnly := false |} |}), None).
Proof.
  intros Hpath.
  rewrite (deviceFromCmdLine_dispatch _ "usb-mass-storage" ["path=" ++ imagePath]
             [ {| key := "path"; value := imagePath |} ]).
  - reflexivity.
  - change ("usb-mass-storage,path=" ++ imagePath)
      with ("usb-mass-storage" ++ String "," ("path=" ++ imagePath)).
    rewrite Split_first by reflexivity.
    rewrite Split_whole; [reflexivity | exact Hpath].
  - unfold strvToOptions.
    change ("path=" ++ imagePath) with ("path" ++ String "=" imagePath).
    rewrite strvToOptions_range_pair; [reflexivity | reflexivity | discriminate].
Qed.

(** The value token of a vsock device splits into its four segments, and
    these into three options. *)
Lemma VirtioVsock_value_token (port : Z) (socketURL : string) (listen : bool) :
  (0 <= port)%Z -> hasByte "," socketURL = false ->
  let direction := if listen then "listen" else "connect" in
  let v := "virtio-vsock,port=" ++ fmt.d port ++ ",socketURL=" ++ socketURL
             ++ "," ++ direction in
  strings.Split v ","
  = ["virtio-vsock"; "port=" ++ fmt.d port; "socketURL=" ++ socketURL; direction]
  /\ strvToOptions ["port=" ++ fmt.d port; "socketURL=" ++ socketURL; direction]
     = Returns [ {| key := "port"; value := fmt.d port |};
                 {| key := "socketURL"; value := socketURL |};
                 {| key := direction; value := "" |} ].
Proof.
  intros Hport Hurl direction v. subst v. split.
  - change ("virtio-vsock,port=" ++ fmt.d port ++ ",socketURL=" ++ socketURL
              ++ "," ++ direction)
      with ("virtio-vsock"
              ++ String ","
                   (("port=" ++ fmt.d port)
                      ++ String ","
                           (("socketURL=" ++ socketURL) ++ String "," direction))).
    rewrite Split_first by reflexivity.
    rewrite Split_first by (exact (fmt_d_no_comma port Hport)).
    rewrite Split_first by exact Hurl.
    rewrite Split_whole; [reflexivity | destruct listen; reflexivity].
  - unfold strvToOptions.
    change ("port=" ++ fmt.d port) with ("port" ++ String "=" (fmt.d port)).
    change ("socketURL=" ++ socketURL) with ("socketURL" ++ String "=" socketURL).
    rewrite !strvToOptions_range_pair;
      [| reflexivity | discriminate | reflexivity | discriminate].
    rewrite strvToOptions_range_bare;
      [reflexivity | destruct listen; reflexivity | destruct listen; discriminate].
Qed.

Lemma decode_vsock_spec (port : Z) (socketURL : string) (listen : bool) :
  (0 <= port <= maxInt)%Z -> hasByte "," socketURL = false ->
  deviceFromCmdLine
    ("virtio-vsock,port=" ++ fmt.d port ++ ",socketURL=" ++ socketURL
       ++ "," ++ (if listen then "listen" else "connect"))
  = Returns (Some (OfVirtioVsock
                     {| Port := port; SocketURL := socketURL; Listen := listen |}),
             None).
Proof.
  intros Hport Hurl.
  destruct (VirtioVsock_value_token port socketURL listen) as [Hsplit Hopts];
    [lia | exact Hurl |].
  rewrite (deviceFromCmdLine_dispatch _ _ _ _ Hsplit Hopts).
  cbn [String.eqb Ascii.eqb Bool.eqb].
  cbn [FromOptions VirtioDevice_VMComponent VirtioVsock_VMComponent lift].
  unfold VirtioVsock_FromOptions. cbn [forRange Port SocketURL].
  rewrite (VirtioVsock_case_port _ {| key := "port"; value := fmt.d port |} eq_refl).
  cbn [value].
  rewrite Atoi_fmt_d by lia.
  unfold uint64_of_int. rewrite Z.mod_small by (unfold maxInt, two64 in *; lia).
  destruct listen; reflexivity.
Qed.

Lemma decode_vsock_spec_large (port : Z) (socketURL : string) (listen : bool) :
  (maxInt < port)%Z -> hasByte "," socketURL = false ->
  deviceFromCmdLine
    ("virtio-vsock,port=" ++ fmt.d port ++ ",socketURL=" ++ socketURL
       ++ "," ++ (if listen then "listen" else "connect"))
  = Returns (None, Some (NumError "Atoi" (fmt.d port) "value out of range")).
Proof.
  intros Hport Hurl.
  assert (Hpos : (0 <= port)%Z) by (unfold maxInt in Hport; lia).
  destruct (VirtioVsock_value_token port socketURL listen) as [Hsplit Hopts];
    [lia | exact Hurl |].
  rewrite (deviceFromCmdLine_dispatch _ _ _ _ Hsplit Hopts).
  cbn [String.eqb Ascii.eqb Bool.eqb].
  cbn [FromOptions VirtioDevice_VMComponent VirtioVsock_VMComponent lift].
  unfold VirtioVsock_FromOptions. cbn [forRange Port SocketURL].
  rewrite (VirtioVsock_case_port _ {| key := "port"; value := fmt.d port |} eq_refl).
  cbn [value].
  rewrite (Atoi_fmt_d_large _ Hport). reflexivity.
Qed.

Lemma validMAC_not_empty (mac : net.HardwareAddr) :
  validMAC mac -> (List.length mac =? 0)%nat = false.
Proof.
  intros [Hlen _]. apply Nat.eqb_neq. lia.
Qed.

Lemma decode_net_spec_nat_mac (mac : net.HardwareAddr) :
  validMAC mac ->
  deviceFromCmdLine ("virtio-net,nat,mac=" ++ net.String_ mac)
  = Returns (Some (OfVirtioNet {| Nat := true; MacAddress := mac; Socket := None |}),
             None).
Proof.
  intros Hmac.
  rewrite (deviceFromCmdLine_dispatch _ "virtio-net"
             ["nat"; "mac=" ++ net.String_ mac]
             [ {| key := "nat"; value := "" |};
               {| key := "mac"; value := net.String_ mac |} ]).
  - cbn [String.eqb Ascii.eqb Bool.eqb].
    cbn [FromOptions VirtioDevice_VMComponent VirtioNet_VMComponent lift].
    unfold VirtioNet_FromOptions. cbn [forRange].
    unfold VirtioNet_case.
    cbn [key value String.eqb Ascii.eqb Bool.eqb negb Nat MacAddress Socket].
    rewrite (ParseMAC_String _ Hmac). reflexivity.
  - change ("virtio-net,nat,mac=" ++ net.String_ mac)
      with ("virtio-net"
              ++ String "," ("nat" ++ String "," ("mac=" ++ net.String_ mac))).
    rewrite Split_first by reflexivity.
    rewrite Split_first by reflexivity.
    rewrite Split_whole; [reflexivity|].
    apply (hwString_no_comma mac (proj2 Hmac) true).
  - unfold strvToOptions.
    rewrite strvToOptions_range_bare; [| reflexivity | discriminate].
    change ("mac=" ++ net.String_ mac) with ("mac" ++ String "=" (net.String_ mac)).
    rewrite strvToOptions_range_pair; [reflexivity | reflexivity | discriminate].
Qed.

Lemma VirtioNet_case_fd_printed (dev : VirtioNet) (fd : Z) :
  (0 <= fd <= maxInt)%Z ->
  VirtioNet_case dev {| key := "fd"; value := fmt.d fd |}
  = ({| Nat := Nat dev; MacAddress := MacAddress dev;
        Socket := Some {| os.Sysfd := fd; os.name := "vfkit virtio-net socket" |} |},
     None).
Proof.
  intros Hfd.
  rewrite (VirtioNet_case_fd dev {| key := "fd"; value := fmt.d fd |} eq_refl).
  cbn [value]. rewrite Atoi_fmt_d by exact Hfd.
  rewrite NewFile_nonnegative by exact Hfd. reflexivity.
Qed.

Lemma decode_net_spec_fd (fd : Z) :
  (0 <= fd <= maxInt)%Z ->
  deviceFromCmdLine ("virtio-net,fd=" ++ fmt.d fd)
  = Returns (Some (OfVirtioNet
                     {| Nat := false; MacAddress := [];
                        Socket := Some {| os.Sysfd := fd;
                                          os.name := "vfkit virtio-net socket" |} |}),
             None).
Proof.
  intros Hfd.
  rewrite (deviceFromCmdLine_dispatch _ "virtio-net" ["fd=" ++ fmt.d fd]
             [ {| key := "fd"; value := fmt.d fd |} ]).
  - cbn [String.eqb Ascii.eqb Bool.eqb].
    cbn [FromOptions VirtioDevice_VMComponent VirtioNet_VMComponent lift].
    unfold VirtioNet_FromOptions. cbn [forRange].
    rewrite (VirtioNet_case_fd_printed _ _ Hfd). reflexivity.
  - change ("virtio-net,fd=" ++ fmt.d fd)
      with ("virtio-net" ++ String "," ("fd=" ++ fmt.d fd)).
    rewrite Split_first by reflexivity.
    rewrite Split_whole; [reflexivity|].
    exact (fmt_d_no_comma fd (proj1 Hfd)).
  - unfold strvToOptions.
    change ("fd=" ++ fmt.d fd) with ("fd" ++ String "=" (fmt.d fd)).
    rewrite strvToOptions_range_pair; [reflexivity | reflexivity | discriminate].
Qed.

Lemma decode_net_spec_fd_mac (fd : Z) (mac : net.HardwareAddr) :
  (0 <= fd <= maxInt)%Z -> validMAC mac ->
  deviceFromCmdLine ("virtio-net,fd=" ++ fmt.d fd ++ ",mac=" ++ net.String_ mac)
  = Returns (Some (OfVirtioNet
                     {| Nat := false; MacAddress := mac;
                        Socket := Some {| os.Sysfd := fd;
                                          os.name := "vfkit virtio-net socket" |} |}),
             None).
Proof.
  intros Hfd Hmac.
  rewrite (deviceFromCmdLine_dispatch _ "virtio-net"
             ["fd=" ++ fmt.d fd; "mac=" ++ net.String_ mac]
             [ {| key := "fd"; value := fmt.d fd |};
               {| key := "mac"; value := net.String_ mac |} ]).
  - cbn [String.eqb Ascii.eqb Bool.eqb].
    cbn [FromOptions VirtioDevice_VMComponent VirtioNet_VMComponent lift].
    unfold VirtioNet_FromOptions. cbn [forRange].
    rewrite (VirtioNet_case_fd_printed _ _ Hfd). cbn [Nat MacAddress].
    unfold VirtioNet_case.
    cbn [key value String.eqb Ascii.eqb Bool.eqb negb Nat MacAddress Socket].
    rewrite (ParseMAC_String _ Hmac). reflexivity.
  - change ("virtio-net,fd=" ++ fmt.d fd ++ ",mac=" ++ net.String_ mac)
      with ("virtio-net"
              ++ String ","
                   (("fd=" ++ fmt.d fd) ++ String "," ("mac=" ++ net.String_ mac))).
    rewrite Split_first by reflexivity.
    rewrite Split_first by (exact (fmt_d_no_comma fd (proj1 Hfd))).
    rewrite Split_whole; [reflexivity|].
    apply (hwString_no_comma mac (proj2 Hmac) true).
  - unfold strvToOptions.
    change ("fd=" ++ fmt.d fd) with ("fd" ++ String "=" (fmt.d fd)).
    change ("mac=" ++ net.String_ mac) with ("mac" ++ String "=" (net.String_ mac)).
    rewrite !strvToOptions_range_pair;
      [reflexivity | reflexivity | discriminate | reflexivity | discriminate].
Qed.

(** What each encoder writes when it succeeds. *)

Lemma VirtioNet_ToCmdLine_nat (mac : net.HardwareAddr) :
  VirtioNet_ToCmdLine {| Nat := true; MacAddress := mac; Socket := None |}
  = (["--device";
      if (List.length mac =? 0)%nat then "virtio-net,nat"
      else "virtio-net,nat,mac=" ++ net.String_ mac], None).
Proof.
  unfold VirtioNet_ToCmdLine, validate.
  cbn [Nat MacAddress Socket isNil negb andb].
  destruct (List.length mac =? 0)%nat; reflexivity.
Qed.

Lemma VirtioNet_ToCmdLine_fd (mac : net.HardwareAddr) (fd : Z) (name : string) :
  (0 <= fd <= maxInt)%Z ->
  VirtioNet_ToCmdLine
    {| Nat := false; MacAddress := mac;
       Socket := Some {| os.Sysfd := fd; os.name := name |} |}
  = (["--device";
      if (List.length mac =? 0)%nat then "virtio-net,fd=" ++ fmt.d fd
      else "virtio-net,fd=" ++ fmt.d fd ++ ",mac=" ++ net.String_ mac], None).
Proof.
  intros Hfd. unfold VirtioNet_ToCmdLine, validate.
  cbn [Nat MacAddress Socket isNil negb andb os.Fd os.Sysfd].
  unfold uint64_of_int. rewrite Z.mod_small by (unfold maxInt, two64 in *; lia).
  destruct (List.length mac =? 0)%nat; reflexivity.
Qed.

Lemma VirtioBlk_ToCmdLine_ok (devName imagePath devId : string) (readOnly : bool) :
  imagePath <> "" ->
  VirtioBlk_ToCmdLine
    {| BlkStorageConfig :=
         {| DevName := devName; ImagePath := imagePath; ReadOnly := readOnly |};
       DeviceIdentifier := devId |}
  = (["--device";
      if String.eqb devId "" then devName ++ ",path=" ++ imagePath
      else devName ++ ",path=" ++ imagePath ++ ",deviceId=" ++ devId], None).
Proof.
  intros Hne. unfold VirtioBlk_ToCmdLine, StorageConfig_ToCmdLine.
  cbn [BlkStorageConfig DeviceIdentifier ImagePath DevName].
  rewrite (eqb_empty_false _ Hne). cbn [List.length Nat.eqb negb].
  destruct (String.eqb devId ""); cbn [negb nth assign]; [reflexivity|].
  rewrite append_associative. reflexivity.
Qed.

(** ** Encoding, then decoding *)

(** X1. A serial device with a log file path that is not empty and holds
    no comma encodes to two tokens, and the dispatcher decodes the value
    token to that same device. *)
Theorem VirtioSerial_encode_decode (dev : VirtioSerial) :
  LogFile dev <> "" -> hasByte "," (LogFile dev) = false ->
  exists v,
    ToCmdLine dev = (["--device"; v], None)
    /\ deviceFromCmdLine v = Returns (Some (OfVirtioSerial dev), None).
Proof.
  destruct dev as [p]. cbn [LogFile]. intros Hne Hcomma.
  exists ("virtio-serial,logFilePath=" ++ p). split.
  - cbn [ToCmdLine VirtioSerial_VMComponent]. unfold VirtioSerial_ToCmdLine.
    cbn [LogFile]. rewrite (eqb_empty_false _ Hne). reflexivity.
  - apply decode_serial_spec. exact Hcomma.
Qed.

Lemma VirtioSerial_encode_decode_witness :
  exists v,
    ToCmdLine {| LogFile := "/var/log/vm=1.log" |} = (["--device"; v], None)
    /\ deviceFromCmdLine v
       = Returns (Some (OfVirtioSerial {| LogFile := "/var/log/vm=1.log" |}), None).
Proof.
  apply (VirtioSerial_encode_decode {| LogFile := "/var/log/vm=1.log" |}).
  - discriminate.
  - reflexivity.
Defined.

(** X2. A file-sharing device with a shared directory that is not empty,
    and no comma in the directory or in the mount tag, encodes to two
    tokens, and the dispatcher decodes the value token to that same
    device; this holds with and without a mount tag. *)
Theorem VirtioFs_encode_decode (dev : VirtioFs) :
  SharedDir dev <> "" ->
  hasByte "," (SharedDir dev) = false -> hasByte "," (MountTag dev) = false ->
  exists v,
    ToCmdLine dev = (["--device"; v], None)
    /\ deviceFromCmdLine v = Returns (Some (OfVirtioFs dev), None).
Proof.
  destruct dev as [d t]. cbn [SharedDir MountTag]. intros Hne Hd Ht.
  cbn [ToCmdLine VirtioFs_VMComponent]. unfold VirtioFs_ToCmdLine.
  cbn [SharedDir MountTag]. rewrite (eqb_empty_false _ Hne).
  destruct (String.eqb t "") eqn:Htag; cbn [negb].
  - apply String.eqb_eq in Htag. subst t.
    eexists. split; [reflexivity|]. apply decode_fs_spec. exact Hd.
  - eexists. split; [reflexivity|]. apply decode_fs_spec_tag; assumption.
Qed.

Lemma VirtioFs_encode_decode_witness :
  exists v,
    ToCmdLine {| SharedDir := "/Users/me/share"; MountTag := "share" |}
    = (["--device"; v], None)
    /\ deviceFromCmdLine v
       = Returns (Some (OfVirtioFs {| SharedDir := "/Users/me/share";
                                      MountTag := "share" |}), None).
Proof.
  apply (VirtioFs_encode_decode
           {| SharedDir := "/Users/me/share"; MountTag := "share" |}).
  - discriminate.
  - reflexivity.
  - reflexivity.
Defined.

(** X3. A block device made by [VirtioBlkNew] from an image path that is
    not empty, with any device identifier set on it (none when empty),
    and no comma in either, encodes to two tokens, and the dispatcher
    decodes the value token to that same device. *)
Theorem VirtioBlk_encode_decode (imagePath devId : string) :
  imagePath <> "" ->
  hasByte "," imagePath = false -> hasByte "," devId = false ->
  let dev := SetDeviceIdentifier (fst (VirtioBlkNew imagePath)) devId in
  exists v,
    ToCmdLine dev = (["--device"; v], None)
    /\ deviceFromCmdLine v = Returns (Some (OfVirtioBlk dev), None).
Proof.
  intros Hne Hpath Hid dev. subst dev.
  unfold VirtioBlkNew, SetDeviceIdentifier, virtioBlkNewEmpty.
  cbn [ToCmdLine VirtioBlk_VMComponent fst BlkStorageConfig DeviceIdentifier
       DevName ReadOnly].
  rewrite (VirtioBlk_ToCmdLine_ok _ _ _ _ Hne).
  destruct (String.eqb devId "") eqn:Hempty.
  - apply String.eqb_eq in Hempty. subst devId.
    eexists. split; [reflexivity|]. apply decode_blk_spec. exact Hpath.
  - eexists. split; [reflexivity|]. apply decode_blk_spec_id; assumption.
Qed.

Lemma VirtioBlk_encode_decode_witness :
  let dev := SetDeviceIdentifier (fst (VirtioBlkNew "/vm/disk.img")) "root" in
  exists v,
    ToCmdLine dev = (["--device"; v], None)
    /\ deviceFromCmdLine v = Returns (Some (OfVirtioBlk dev), None).
Proof.
  apply (VirtioBlk_encode_decode "/vm/disk.img" "root").
  - discriminate.
  - reflexivity.
  - reflexivity.
Defined.

(** X4. A USB storage device made by [USBMassStorageNew] from an image
    path that is not empty and holds no comma encodes to two tokens, and
    the dispatcher decodes the value token to that same device. *)
Theorem USBMassStorage_encode_decode (imagePath : string) :
  imagePath <> "" -> hasByte "," imagePath = false ->
  let dev := fst (USBMassStorageNew imagePath) in
  exists v,
    ToCmdLine dev = (["--device"; v], None)
    /\ deviceFromCmdLine v = Returns (Some (OfUSBMassStorage dev), None).
Proof.
  intros Hne Hpath dev. subst dev.
  cbn [ToCmdLine USBMassStorage_VMComponent]. unfold USBMassStorage_ToCmdLine.
  cbn [USBMassStorageNew fst UsbStorageConfig]. unfold StorageConfig_ToCmdLine.
  cbn [ImagePath DevName usbMassStorageNewEmpty UsbStorageConfig ReadOnly].
  rewrite (eqb_empty_false _ Hne).
  eexists. split; [reflexivity|]. apply decode_usb_spec. exact Hpath.
Qed.

Lemma USBMassStorage_encode_decode_witness :
  let dev := fst (USBMassStorageNew "/vm/install.iso") in
  exists v,
    ToCmdLine dev = (["--device"; v], None)
    /\ deviceFromCmdLine v = Returns (Some (OfUSBMassStorage dev), None).
Proof.
  apply (USBMassStorage_encode_decode "/vm/install.iso").
  - discriminate.
  - reflexivity.
Defined.

Lemma VirtioVsock_ToCmdLine_ok (port : Z) (socketURL : string) (listen : bool) :
  port <> 0%Z -> socketURL <> "" ->
  VirtioVsock_ToCmdLine {| Port := port; SocketURL := socketURL; Listen := listen |}
  = (["--device";
      "virtio-vsock,port=" ++ fmt.d port ++ ",socketURL=" ++ socketURL
        ++ "," ++ (if listen then "listen" else "connect")], None).
Proof.
  intros Hport Hne. unfold VirtioVsock_ToCmdLine. cbn [Port SocketURL Listen].
  replace (port =? 0)%Z with false by (symmetry; apply Z.eqb_neq; exact Hport).
  rewrite (eqb_empty_false _ Hne). reflexivity.
Qed.

(** X5. A vsock device with a port from 1 to the largest [int] and a
    socket URL that is not empty and holds no comma encodes to two tokens,
    and the dispatcher decodes the value token to that same device, in
    either direction. *)
Theorem VirtioVsock_encode_decode (dev : VirtioVsock) :
  (0 < Port dev <= maxInt)%Z ->
  SocketURL dev <> "" -> hasByte "," (SocketURL dev) = false ->
  exists v,
    ToCmdLine dev = (["--device"; v], None)
    /\ deviceFromCmdLine v = Returns (Some (OfVirtioVsock dev), None).
Proof.
  destruct dev as [port url listen]. cbn [Port SocketURL]. intros Hport Hne Hurl.
  cbn [ToCmdLine VirtioVsock_VMComponent].
  rewrite VirtioVsock_ToCmdLine_ok; [| lia | exact Hne].
  eexists. split; [reflexivity|].
  apply decode_vsock_spec; [lia | exact Hurl].
Qed.

Lemma VirtioVsock_encode_decode_witness :
  exists v,
    ToCmdLine {| Port := 5580; SocketURL := "/tmp/vm.sock"; Listen := false |}
    = (["--device"; v], None)
    /\ deviceFromCmdLine v
       = Returns (Some (OfVirtioVsock {| Port := 5580; SocketURL := "/tmp/vm.sock";
                                         Listen := false |}), None).
Proof.
  apply (VirtioVsock_encode_decode
           {| Port := 5580; SocketURL := "/tmp/vm.sock"; Listen := false |}).
  - unfold maxInt. cbn [Port]. lia.
  - discriminate.
  - reflexivity.
Defined.

(** X6. A vsock port above the largest [int] (a [uint] can hold one, and
    decoding a negative port gives one) is still encoded, but the
    dispatcher refuses the value token with [Atoi]'s range error: such a
    device does not survive encoding and decoding. *)
Theorem VirtioVsock_large_port_not_decoded (dev : VirtioVsock) :
  (maxInt < Port dev)%Z ->
  SocketURL dev <> "" -> hasByte "," (SocketURL dev) = false ->
  exists v,
    ToCmdLine dev = (["--device"; v], None)
    /\ deviceFromCmdLine v
       = Returns (None,
                  Some (NumError "Atoi" (fmt.d (Port dev)) "value out of range")).
Proof.
  destruct dev as [port url listen]. cbn [Port SocketURL]. intros Hport Hne Hurl.
  cbn [ToCmdLine VirtioVsock_VMComponent].
  rewrite VirtioVsock_ToCmdLine_ok; [| unfold maxInt in Hport; lia | exact Hne].
  eexists. split; [reflexivity|].
  apply decode_vsock_spec_large; assumption.
Qed.

Lemma VirtioVsock_large_port_not_decoded_witness :
  exists dev v,
    deviceFromCmdLine "virtio-vsock,port=-1,socketURL=/tmp/vm.sock"
    = Returns (Some (OfVirtioVsock dev), None)
    /\ ToCmdLine dev = (["--device"; v], None)
    /\ deviceFromCmdLine v
       = Returns (None,
                  Some (NumError "Atoi" "18446744073709551615" "value out of range")).
Proof.
  exists {| Port := 18446744073709551615; SocketURL := "/tmp/vm.sock";
            Listen := true |}.
  destruct (VirtioVsock_large_port_not_decoded
              {| Port := 18446744073709551615; SocketURL := "/tmp/vm.sock";
                 Listen := true |}) as [v [Henc Hdec]].
  - reflexivity.
  - discriminate.
  - reflexivity.
  - exists v. split; [reflexivity|]. split; [exact Henc | exact Hdec].
Defined.

(** X7. A NAT network device without a hardware address, or with one of
    6, 8 or 20 bytes, encodes to two tokens, and the dispatcher decodes
    the value token to that same device. *)
Theorem VirtioNet_nat_encode_decode (mac : net.HardwareAddr) :
  mac = [] \/ validMAC mac ->
  let dev := {| Nat := true; MacAddress := mac; Socket := None |} in
  exists v,
    ToCmdLine dev = (["--device"; v], None)
    /\ deviceFromCmdLine v = Returns (Some (OfVirtioNet dev), None).
Proof.
  intros Hmac dev; subst dev.
  cbn [ToCmdLine VirtioNet_VMComponent]. rewrite VirtioNet_ToCmdLine_nat.
  eexists. split; [reflexivity|].
  destruct Hmac as [-> | Hmac].
  - reflexivity.
  - rewrite (validMAC_not_empty _ Hmac). apply decode_net_spec_nat_mac. exact Hmac.
Qed.

Lemma VirtioNet_nat_encode_decode_witness :
  let dev := {| Nat := true; MacAddress := [170; 187; 204; 221; 238; 255]%Z;
                Socket := None |} in
  exists v,
    ToCmdLine dev = (["--device"; v], None)
    /\ deviceFromCmdLine v = Returns (Some (OfVirtioNet dev), None).
Proof.
  apply (VirtioNet_nat_encode_decode [170; 187; 204; 221; 238; 255]%Z).
  right. split.
  - left. reflexivity.
  - repeat constructor; lia.
Defined.

(** X8. A network device on a socket whose descriptor is from 0 to the
    largest [int] (the file being the one the decoder makes for that
    descriptor), without a hardware address or with one of 6, 8 or 20
    bytes, encodes to two tokens, and the dispatcher decodes the value
    token to that same device. *)
Theorem VirtioNet_fd_encode_decode (fd : Z) (mac : net.HardwareAddr) :
  (0 <= fd <= maxInt)%Z ->
  mac = [] \/ validMAC mac ->
  let dev := {| Nat := false; MacAddress := mac;
                Socket := Some {| os.Sysfd := fd;
                                  os.name := "vfkit virtio-net socket" |} |} in
  exists v,
    ToCmdLine dev = (["--device"; v], None)
    /\ deviceFromCmdLine v = Returns (Some (OfVirtioNet dev), None).
Proof.
  intros Hfd Hmac dev; subst dev.
  cbn [ToCmdLine VirtioNet_VMComponent]. rewrite (VirtioNet_ToCmdLine_fd _ _ _ Hfd).
  eexists. split; [reflexivity|].
  destruct Hmac as [-> | Hmac].
  - cbn [List.length Nat.eqb]. apply decode_net_spec_fd. exact Hfd.
  - rewrite (validMAC_not_empty _ Hmac). apply decode_net_spec_fd_mac; assumption.
Qed.

Lemma VirtioNet_fd_encode_decode_witness :
  let dev := {| Nat := false; MacAddress := [];
                Socket := Some {| os.Sysfd := 3;
                                  os.name := "vfkit virtio-net socket" |} |} in
  exists v,
    ToCmdLine dev = (["--device"; v], None)
    /\ deviceFromCmdLine v = Returns (Some (OfVirtioNet dev), None).
Proof.
  apply (VirtioNet_fd_encode_decode 3 []).
  - unfold maxInt. lia.
  - left. reflexivity.
Defined.

(** ** What the dispatcher returns *)

(** A device the dispatcher returns was decoded, from the options of the
    segments after the tag, into the empty device of that tag. *)
Lemma deviceFromCmdLine_inv (deviceOpts : string) (dev : VirtioDevice) :
  deviceFromCmdLine deviceOpts = Returns (Some dev, None) ->
  exists tag segs os dev0,
    strings.Split deviceOpts "," = tag :: segs
    /\ strvToOptions segs = Returns os
    /\ In (tag, dev0) emptyDevices
    /\ FromOptions dev0 os = (dev, None).
Proof.
  intros H.
  destruct (Split_nonempty deviceOpts ",") as [tag [segs Hsplit]].
  destruct (strvToOptions_range_spec segs []) as [os [Hopts _]].
  change (strvToOptions_range [] segs) with (strvToOptions segs) in Hopts.
  cbn [app] in Hopts.
  rewrite (deviceFromCmdLine_dispatch _ _ _ _ Hsplit Hopts) in H.
  exists tag, segs, os.
  repeat match type of H with
         | context [String.eqb tag ?t] =>
             let E := fresh "E" in
             destruct (String.eqb tag t) eqn:E;
             [ apply String.eqb_eq in E; subst tag | ]
         end;
    try discriminate H;
    match type of H with
    | context [FromOptions ?d os] =>
        exists d; destruct (FromOptions d os) as [dev' [err|]] eqn:Hrun;
        [discriminate H|];
        injection H as <-;
        repeat split; try assumption; unfold emptyDevices; simpl; tauto
    end.
Qed.

(** ** Commas never reach a field *)

Lemma SplitN_two_more (s : string) (sep : ascii) (n : nat) :
  strings.SplitN s sep (S (S n))
  = match strings.cut s sep with
    | None => [s]
    | Some (a, b) => a :: strings.SplitN b sep (S n)
    end.
Proof. reflexivity. Qed.

Lemma Split_String (c : ascii) (s : string) (sep : ascii) :
  strings.Split (String c s) sep
  = if Ascii.eqb c sep then "" :: strings.Split s sep
    else match strings.Split s sep with
         | first :: rest => String c first :: rest
         | [] => []
         end.
Proof.
  unfold strings.Split. cbn [String.length].
  rewrite SplitN_two_more. cbn [strings.cut].
  destruct (Ascii.eqb c sep); [reflexivity|].
  destruct (strings.cut s sep) as [[a b]|] eqn:Hcut.
  - pose proof (cut_shortens _ _ _ _ Hcut) as Hb.
    destruct (String.length s) as [|n] eqn:Hlen; [lia|].
    rewrite (SplitN_two_more s), Hcut. f_equal.
    apply SplitN_enough; lia.
  - destruct (String.length s) as [|n]; [reflexivity|].
    rewrite (SplitN_two_more s), Hcut. reflexivity.
Qed.

Lemma Split_pieces (s : string) (sep : ascii) :
  Forall (fun seg => hasByte sep seg = false) (strings.Split s sep).
Proof.
  induction s as [|c s IH].
  - repeat constructor.
  - rewrite Split_String. destruct (Ascii.eqb c sep) eqn:Hc.
    + constructor; [reflexivity | exact IH].
    + destruct (strings.Split s sep) as [|first rest]; [constructor|].
      inversion IH as [|? ? Hfirst Hrest]; subst.
      constructor; [|exact Hrest]. simpl. rewrite Hc, Hfirst. reflexivity.
Qed.

Lemma cut_parts (s : string) (sep : ascii) (a b : string) :
  strings.cut s sep = Some (a, b) -> s = a ++ String sep b.
Proof.
  revert a. induction s as [|c r IH]; intros a H; simpl in H; [discriminate|].
  destruct (Ascii.eqb c sep) eqn:Hc.
  - injection H as <- <-. apply Ascii.eqb_eq in Hc. subst c. reflexivity.
  - destruct (strings.cut r sep) as [[a' b']|]; [|discriminate].
    injection H as <- <-. simpl. rewrite (IH a' eq_refl) at 1. reflexivity.
Qed.

Lemma strToOption_value_no (c : ascii) (seg : string) (o : Option) :
  hasByte c seg = false -> strToOption seg = Returns o ->
  hasByte c (value o) = false.
Proof.
  intros Hseg. unfold strToOption. cbn [strings.SplitN].
  destruct (strings.cut seg "=") as [[a b]|] eqn:Hcut;
    cbn [index nth_error bind List.length Nat.ltb Nat.leb];
    intros H; injection H as <-; cbn [value key]; [|reflexivity].
  apply cut_parts in Hcut. subst seg.
  rewrite hasByte_append in Hseg. apply orb_false_iff in Hseg as [_ Hseg].
  simpl in Hseg. apply orb_false_iff in Hseg as [_ Hb]. exact Hb.
Qed.

(** No option value the dispatcher hands to a decoder holds a comma. *)
Lemma strvToOptions_values (segs : list string) (os : list Option) :
  Forall (fun seg => hasByte "," seg = false) segs ->
  strvToOptions segs = Returns os ->
  Forall (fun o => hasByte "," (value o) = false) os.
Proof.
  intros Hsegs Hrun.
  destruct (strvToOptions_range_spec segs []) as [os' [Hrun' Hall]].
  unfold strvToOptions in Hrun. rewrite Hrun' in Hrun.
  injection Hrun as <-. cbn [app].
  assert (Hfilter : Forall (fun seg => hasByte "," seg = false)
                      (filter (fun seg => negb (String.eqb seg "")) segs)).
  { apply Forall_forall. intros seg Hin. apply filter_In in Hin as [Hin _].
    rewrite Forall_forall in Hsegs. auto. }
  clear Hrun' Hsegs.
  induction Hall as [|seg o segs' os'' Ho Hrest IH]; [constructor|].
  inversion Hfilter as [|? ? Hseg Hfilter']; subst.
  constructor; [|apply IH; exact Hfilter'].
  exact (strToOption_value_no _ _ _ Hseg Ho).
Qed.

(** ** What a decode leaves in the fields *)

Lemma xtoi2_byte (s : string) (e : ascii) :
  (0 <= fst (net.xtoi2 s e) < 256)%Z.
Proof.
  unfold net.xtoi2.
  destruct (_ && _); [simpl; lia|].
  destruct (net.xtoi _) as [[n ei] ok]. cbn [fst].
  apply Z.mod_pos_bound. lia.
Qed.

Lemma groups3_valid (n : nat) :
  forall s e hw,
  net.groups3 s e n = Some hw ->
  List.length hw = n /\ Forall (fun b => (0 <= b < 256)%Z) hw.
Proof.
  induction n as [|n IH]; intros s e hw H; cbn [net.groups3] in H.
  - injection H as <-. split; [reflexivity | constructor].
  - pose proof (xtoi2_byte s e) as Hb.
    destruct (net.xtoi2 s e) as [b [|]]; [|discriminate].
    destruct (net.groups3 (net.drop 3 s) e n) as [hw'|] eqn:Hrest; [|discriminate].
    injection H as <-. destruct (IH _ _ _ Hrest) as [Hlen Hall].
    split; [simpl; rewrite Hlen; reflexivity | constructor; assumption].
Qed.

Lemma groups5_valid (n : nat) :
  forall s e hw,
  net.groups5 s e n = Some hw ->
  List.length hw = (2 * n)%nat /\ Forall (fun b => (0 <= b < 256)%Z) hw.
Proof.
  induction n as [|n IH]; intros s e hw H; cbn [net.groups5] in H.
  - injection H as <-. split; [reflexivity | constructor].
  - pose proof (xtoi2_byte (String.substring 0 2 s) Ascii.zero) as Hb1.
    pose proof (xtoi2_byte (net.drop 2 s) e) as Hb2.
    destruct (net.xtoi2 (String.substring 0 2 s) Ascii.zero) as [b1 [|]];
      [|discriminate].
    destruct (net.xtoi2 (net.drop 2 s) e) as [b2 [|]]; [|discriminate].
    destruct (net.groups5 (net.drop 5 s) e n) as [hw'|] eqn:Hrest; [|discriminate].
    injection H as <-. destruct (IH _ _ _ Hrest) as [Hlen Hall].
    split; [simpl; rewrite Hlen; lia|].
    constructor; [exact Hb1 | constructor; [exact Hb2 | exact Hall]].
Qed.

Lemma three_lengths (n : nat) :
  negb ((n =? 6) || (n =? 8) || (n =? 20))%nat = false ->
  (n = 6 \/ n = 8 \/ n = 20)%nat.
Proof.
  intros H. apply negb_false_iff in H.
  apply orb_true_iff in H as [H | H]; [apply orb_true_iff in H as [H | H]|];
    apply Nat.eqb_eq in H; auto.
Qed.

(** An address [ParseMAC] returns has 6, 8 or 20 bytes. *)
Lemma ParseMAC_valid (s : string) (mac : net.HardwareAddr) :
  net.ParseMAC s = (mac, None) -> validMAC mac.
Proof.
  unfold net.ParseMAC. cbv zeta.
  destruct (String.length s <? 14)%nat; [discriminate|].
  destruct (Ascii.eqb (net.at_ s 2) ":" || Ascii.eqb (net.at_ s 2) "-").
  - destruct (negb (((String.length s + 1) mod 3) =? 0)%nat); [discriminate|].
    destruct (negb _) eqn:Hn; [discriminate|].
    apply three_lengths in Hn.
    destruct (net.groups3 _ _ _) as [hw|] eqn:Hg; [|discriminate].
    intros H. injection H as <-.
    destruct (groups3_valid _ _ _ _ Hg) as [Hlen Hall].
    split; [rewrite Hlen; exact Hn | exact Hall].
  - destruct (Ascii.eqb (net.at_ s 4) "."); [|discriminate].
    destruct (negb (((String.length s + 1) mod 5) =? 0)%nat); [discriminate|].
    destruct (negb _) eqn:Hn; [discriminate|].
    apply three_lengths in Hn.
    destruct (net.groups5 _ _ _) as [hw|] eqn:Hg; [|discriminate].
    intros H. injection H as <-.
    destruct (groups5_valid _ _ _ _ Hg) as [Hlen Hall].
    split; [|exact Hall]. rewrite Hlen.
    destruct Hn as [Hn | [Hn | Hn]]; rewrite Hn; simpl; auto.
Qed.

Lemma Atoi_range (s : string) (v : Z) :
  strconv.Atoi s = (v, None) -> (minInt <= v <= maxInt)%Z.
Proof. intros H. exact (proj2 (Atoi_accepts _ _ H)). Qed.

(** The invariant of a network decode: the address is absent or one
    [ParseMAC] returned, and the socket is absent or the file made for a
    descriptor that is not negative. *)
Lemma VirtioNet_case_fields (dev : VirtioNet) (o : Option) :
  (MacAddress dev = [] \/ validMAC (MacAddress dev)) ->
  (Socket dev = None
   \/ exists fd, (0 <= fd <= maxInt)%Z
                 /\ Socket dev = Some {| os.Sysfd := fd;
                                         os.name := "vfkit virtio-net socket" |}) ->
  let dev' := fst (VirtioNet_case dev o) in
  (MacAddress dev' = [] \/ validMAC (MacAddress dev'))
  /\ (Socket dev' = None
      \/ exists fd, (0 <= fd <= maxInt)%Z
                    /\ Socket dev' = Some {| os.Sysfd := fd;
                                             os.name := "vfkit virtio-net socket" |}).
Proof.
  intros Hmac Hsock. unfold VirtioNet_case.
  destruct (String.eqb (key o) "nat").
  { destruct (negb (String.eqb (value o) "")); cbn [fst MacAddress Socket]; auto. }
  destruct (String.eqb (key o) "mac").
  { destruct (net.ParseMAC (value o)) as [mac [err|]] eqn:Hparse;
      cbn [fst MacAddress Socket]; auto.
    split; [right; exact (ParseMAC_valid _ _ Hparse) | exact Hsock]. }
  destruct (String.eqb (key o) "fd"); [|cbn [fst]; auto].
  destruct (strconv.Atoi (value o)) as [fd [err|]] eqn:Hfd;
    cbn [fst MacAddress Socket]; auto.
  split; [exact Hmac|].
  pose proof (Atoi_range _ _ Hfd) as Hrange.
  destruct (fd <? 0)%Z eqn:Hneg.
  - apply Z.ltb_lt in Hneg. left. apply NewFile_negative. lia.
  - apply Z.ltb_ge in Hneg. right. exists fd. split; [lia|].
    apply NewFile_nonnegative. lia.
Qed.

Lemma VirtioVsock_case_fields (dev : VirtioVsock) (o : Option) :
  hasByte "," (value o) = false ->
  hasByte "," (SocketURL dev) = false /\ (0 <= Port dev < two64)%Z ->
  let dev' := fst (VirtioVsock_case dev o) in
  hasByte "," (SocketURL dev') = false /\ (0 <= Port dev' < two64)%Z.
Proof.
  intros Ho [Hurl Hport]. unfold VirtioVsock_case.
  destruct (String.eqb (key o) "socketURL"); [cbn [fst SocketURL Port]; auto|].
  destruct (String.eqb (key o) "port").
  { destruct (strconv.Atoi (value o)) as [port [err|]];
      cbn [fst SocketURL Port]; auto.
    split; [exact Hurl|]. unfold uint64_of_int.
    apply Z.mod_pos_bound. unfold two64. lia. }
  destruct (String.eqb (key o) "listen"); [cbn [fst SocketURL Port]; auto|].
  destruct (String.eqb (key o) "connect"); cbn [fst SocketURL Port]; auto.
Qed.

(** ** Decoding, encoding, then decoding again *)

Section Redecode.

Variable os : list Option.
Hypothesis Hvalues : Forall (fun o => hasByte "," (value o) = false) os.

Lemma value_no_comma (o : Option) : In o os -> hasByte "," (value o) = false.
Proof. rewrite Forall_forall in Hvalues. apply Hvalues. Qed.

Lemma VirtioSerial_redecode (d : VirtioSerial) (v : string) :
  VirtioSerial_FromOptions {| LogFile := "" |} os = (d, None) ->
  VirtioSerial_ToCmdLine d = (["--device"; v], None) ->
  deviceFromCmdLine v = Returns (Some (OfVirtioSerial d), None).
Proof.
  intros Hrun Henc.
  assert (Hfield : hasByte "," (LogFile d) = false).
  { change d with (fst (d, @None error)). rewrite <- Hrun.
    apply (forRange_invariant VirtioSerial_case
             (fun x => hasByte "," (LogFile x) = false)); [|reflexivity].
    intros s o Hin Hs. unfold VirtioSerial_case.
    destruct (String.eqb (key o) "logFilePath"); cbn [fst LogFile];
      [exact (value_no_comma o Hin) | exact Hs]. }
  destruct d as [p]. unfold VirtioSerial_ToCmdLine in Henc. cbn [LogFile] in *.
  destruct (String.eqb p ""); [discriminate|].
  injection Henc as <-. apply decode_serial_spec. exact Hfield.
Qed.

Lemma VirtioFs_redecode (d : VirtioFs) (v : string) :
  VirtioFs_FromOptions {| SharedDir := ""; MountTag := "" |} os = (d, None) ->
  VirtioFs_ToCmdLine d = (["--device"; v], None) ->
  deviceFromCmdLine v = Returns (Some (OfVirtioFs d), None).
Proof.
  intros Hrun Henc.
  assert (Hfield : hasByte "," (SharedDir d) = false
                   /\ hasByte "," (MountTag d) = false).
  { change d with (fst (d, @None error)). rewrite <- Hrun.
    apply (forRange_invariant VirtioFs_case
             (fun x => hasByte "," (SharedDir x) = false
                       /\ hasByte "," (MountTag x) = false));
      [|split; reflexivity].
    intros s o Hin [Hd Ht]. unfold VirtioFs_case.
    pose proof (value_no_comma o Hin) as Ho.
    destruct (String.eqb (key o) "sharedDir"); cbn [fst SharedDir MountTag]; auto.
    destruct (String.eqb (key o) "mountTag"); cbn [fst SharedDir MountTag]; auto. }
  destruct Hfield as [Hd Ht].
  destruct d as [dir tag]. unfold VirtioFs_ToCmdLine in Henc.
  cbn [SharedDir MountTag] in *.
  destruct (String.eqb dir ""); [discriminate|].
  destruct (String.eqb tag "") eqn:Htag; cbn [negb] in Henc; injection Henc as <-.
  - apply String.eqb_eq in Htag. subst tag. apply decode_fs_spec. exact Hd.
  - apply decode_fs_spec_tag; assumption.
Qed.

Lemma StorageConfig_decoded (config config' : StorageConfig) (options : list Option) :
  (forall o, In o options -> hasByte "," (value o) = false) ->
  hasByte "," (ImagePath config) = false ->
  fst (StorageConfig_FromOptions config options) = config' ->
  DevName config' = DevName config /\ ReadOnly config' = ReadOnly config
  /\ hasByte "," (ImagePath config') = false.
Proof.
  intros Hopts Hpath <-.
  destruct (StorageConfig_FromOptions_frame config options) as [Hname Hro].
  split; [exact Hname|]. split; [exact Hro|].
  apply (forRange_invariant StorageConfig_case
           (fun c => hasByte "," (ImagePath c) = false)); [|exact Hpath].
  intros s o Hin Hs. unfold StorageConfig_case.
  destruct (String.eqb (key o) "path"); cbn [fst ImagePath]; auto.
Qed.

Lemma USBMassStorage_redecode (d : USBMassStorage) (v : string) :
  USBMassStorage_FromOptions usbMassStorageNewEmpty os = (d, None) ->
  USBMassStorage_ToCmdLine d = (["--device"; v], None) ->
  deviceFromCmdLine v = Returns (Some (OfUSBMassStorage d), None).
Proof.
  intros Hrun Henc. unfold USBMassStorage_FromOptions in Hrun.
  destruct (StorageConfig_FromOptions (UsbStorageConfig usbMassStorageNewEmpty) os)
    as [config err] eqn:Hcfg.
  injection Hrun as <- ->.
  destruct (StorageConfig_decoded (UsbStorageConfig usbMassStorageNewEmpty) config os
              value_no_comma eq_refl (f_equal fst Hcfg)) as [Hname [Hro Hpath]].
  destruct config as [name path ro]. cbn [DevName ReadOnly ImagePath] in *.
  cbn in Hname, Hro. subst name ro.
  unfold USBMassStorage_ToCmdLine, StorageConfig_ToCmdLine in Henc.
  cbn [UsbStorageConfig ImagePath DevName] in Henc.
  destruct (String.eqb path ""); [discriminate|].
  injection Henc as <-. apply decode_usb_spec. exact Hpath.
Qed.

Lemma VirtioBlk_redecode (d : VirtioBlk) (v : string) :
  VirtioBlk_FromOptions virtioBlkNewEmpty os = (d, None) ->
  VirtioBlk_ToCmdLine d = (["--device"; v], None) ->
  deviceFromCmdLine v = Returns (Some (OfVirtioBlk d), None).
Proof.
  intros Hrun Henc. unfold VirtioBlk_FromOptions in Hrun.
  destruct (VirtioBlk_unhandled os virtioBlkNewEmpty []) as [d1 [Hloop Hcfg1]].
  assert (Hid : hasByte "," (DeviceIdentifier d1) = false).
  { change d1 with (fst (d1, ([] ++ filter (fun o => negb (String.eqb (key o) "deviceId"))
                                      os)%list)).
    rewrite <- Hloop.
    apply (forRange_invariant VirtioBlk_case
             (fun st => hasByte "," (DeviceIdentifier (fst st)) = false));
      [|reflexivity].
    intros [dv un] o Hin Hs. unfold VirtioBlk_case.
    destruct (String.eqb (key o) "deviceId");
      cbn [fst SetDeviceIdentifier DeviceIdentifier] in *;
      [exact (value_no_comma o Hin) | exact Hs]. }
  rewrite Hloop in Hrun. cbn [app] in Hrun.
  destruct (StorageConfig_FromOptions (BlkStorageConfig d1) _)
    as [config err] eqn:Hcfg.
  injection Hrun as <- ->.
  assert (Hpath1 : hasByte "," (ImagePath (BlkStorageConfig d1)) = false)
    by (rewrite Hcfg1; reflexivity).
  destruct (StorageConfig_decoded (BlkStorageConfig d1) config _
              (fun o Hin => value_no_comma o (proj1 (proj1 (filter_In _ _ _) Hin)))
              Hpath1 (f_equal fst Hcfg)) as [Hname [Hro Hpath]].
  rewrite Hcfg1 in Hname, Hro.
  destruct config as [name path ro]. cbn [DevName ReadOnly ImagePath] in *.
  cbn in Hname, Hro. subst name ro.
  destruct (String.eqb path "") eqn:Hempty.
  - apply String.eqb_eq in Hempty. subst path.
    unfold VirtioBlk_ToCmdLine, StorageConfig_ToCmdLine in Henc.
    cbn in Henc. discriminate.
  - apply String.eqb_neq in Hempty.
    rewrite (VirtioBlk_ToCmdLine_ok _ _ _ _ Hempty) in Henc.
    injection Henc as <-.
    destruct (String.eqb (DeviceIdentifier d1) "") eqn:Hnone.
    + apply String.eqb_eq in Hnone. rewrite Hnone. apply decode_blk_spec. exact Hpath.
    + apply decode_blk_spec_id; assumption.
Qed.

Lemma VirtioVsock_redecode (d : VirtioVsock) (v : string) :
  VirtioVsock_FromOptions {| Port := 0; SocketURL := ""; Listen := false |} os
  = (d, None) ->
  VirtioVsock_ToCmdLine d = (["--device"; v], None) ->
  (Port d <= maxInt)%Z ->
  deviceFromCmdLine v = Returns (Some (OfVirtioVsock d), None).
Proof.
  intros Hrun Henc Hmax.
  assert (Hfield : hasByte "," (SocketURL d) = false /\ (0 <= Port d < two64)%Z).
  { change d with (fst (d, @None error)). rewrite <- Hrun.
    unfold VirtioVsock_FromOptions.
    apply (forRange_invariant VirtioVsock_case
             (fun x => hasByte "," (SocketURL x) = false /\ (0 <= Port x < two64)%Z)).
    - intros s o Hin Hs.
      exact (VirtioVsock_case_fields s o (value_no_comma o Hin) Hs).
    - split; [reflexivity | unfold two64; cbn [Port]; lia]. }
  destruct Hfield as [Hurl Hport].
  destruct d as [port url listen]. cbn [Port SocketURL] in *.
  unfold VirtioVsock_ToCmdLine in Henc. cbn [Port SocketURL Listen] in Henc.
  destruct (port =? 0)%Z eqn:Hzero; [discriminate|].
  destruct (String.eqb url ""); [discriminate|]. cbn [orb] in Henc.
  injection Henc as <-. apply Z.eqb_neq in Hzero.
  apply decode_vsock_spec; [lia | exact Hurl].
Qed.

Lemma VirtioNet_redecode (d : VirtioNet) (v : string) :
  VirtioNet_FromOptions {| Nat := false; MacAddress := []; Socket := None |} os
  = (d, None) ->
  VirtioNet_ToCmdLine d = (["--device"; v], None) ->
  deviceFromCmdLine v = Returns (Some (OfVirtioNet d), None).
Proof.
  intros Hrun Henc. unfold VirtioNet_FromOptions in Hrun.
  destruct (forRange VirtioNet_case _ os) as [d1 [err|]] eqn:Hloop; [discriminate|].
  injection Hrun as <- Hvalid.
  assert (Hfield :
            (MacAddress d1 = [] \/ validMAC (MacAddress d1))
            /\ (Socket d1 = None
                \/ exists fd, (0 <= fd <= maxInt)%Z
                              /\ Socket d1
                                 = Some {| os.Sysfd := fd;
                                           os.name := "vfkit virtio-net socket" |})).
  { change d1 with (fst (d1, @None error)). rewrite <- Hloop.
    apply (forRange_invariant VirtioNet_case
             (fun x =>
                (MacAddress x = [] \/ validMAC (MacAddress x))
                /\ (Socket x = None
                    \/ exists fd, (0 <= fd <= maxInt)%Z
                                  /\ Socket x
                                     = Some {| os.Sysfd := fd;
                                               os.name := "vfkit virtio-net socket" |}))).
    - intros s o _ [Hm Hs]. exact (VirtioNet_case_fields s o Hm Hs).
    - split; left; reflexivity. }
  destruct Hfield as [Hmac Hsock].
  destruct d1 as [nat mac sock]. cbn [MacAddress Socket] in *.
  unfold validate in Hvalid. cbn [Nat Socket] in Hvalid.
  destruct Hsock as [-> | [fd [Hfd ->]]]; destruct nat; cbn in Hvalid;
    try discriminate Hvalid.
  - rewrite VirtioNet_ToCmdLine_nat in Henc. injection Henc as <-.
    destruct Hmac as [-> | Hmac]; [reflexivity|].
    rewrite (validMAC_not_empty _ Hmac). apply decode_net_spec_nat_mac. exact Hmac.
  - rewrite (VirtioNet_ToCmdLine_fd _ _ _ Hfd) in Henc. injection Henc as <-.
    destruct Hmac as [-> | Hmac].
    + cbn [List.length Nat.eqb]. apply decode_net_spec_fd. exact Hfd.
    + rewrite (validMAC_not_empty _ Hmac). apply decode_net_spec_fd_mac; assumption.
Qed.

End Redecode.

(** X9. Decoding, encoding and decoding again gives the same device: when
    the dispatcher returns a device for a spec and that device encodes,
    the dispatcher decodes the value token to that device again.  For a
    vsock device this needs a port that fits an [int]. *)
Theorem decode_encode_decode (deviceOpts : string) (dev : VirtioDevice) (v : string) :
  deviceFromCmdLine deviceOpts = Returns (Some dev, None) ->
  ToCmdLine dev = (["--device"; v], None) ->
  (forall d, dev = OfVirtioVsock d -> (Port d <= maxInt)%Z) ->
  deviceFromCmdLine v = Returns (Some dev, None).
Proof.
  intros Hdec Henc Hport.
  destruct (deviceFromCmdLine_inv _ _ Hdec)
    as (tag & segs & os & dev0 & Hsplit & Hopts & Hin & Hrun).
  assert (Hvalues : Forall (fun o => hasByte "," (value o) = false) os).
  { apply (strvToOptions_values segs); [|exact Hopts].
    pose proof (Split_pieces deviceOpts ",") as Hpieces.
    rewrite Hsplit in Hpieces. inversion Hpieces; assumption. }
  unfold emptyDevices in Hin. cbn [In] in Hin.
  repeat (destruct Hin as [Hin | Hin]; [injection Hin as <- <- | ]);
    try contradiction;
    cbn [FromOptions VirtioDevice_VMComponent] in Hrun; unfold lift in Hrun;
    match type of Hrun with
    | (_ (fst ?r), snd ?r) = _ =>
        destruct r as [d err] eqn:Hd; cbn [fst snd] in Hrun;
        injection Hrun as <- ->
    end;
    cbn [ToCmdLine VirtioDevice_VMComponent] in Henc.
  - exact (VirtioBlk_redecode os Hvalues d v Hd Henc).
  - exact (VirtioFs_redecode os Hvalues d v Hd Henc).
  - exact (VirtioNet_redecode os d v Hd Henc).
  - destruct d. cbn in Henc. injection Henc as <-. reflexivity.
  - exact (VirtioSerial_redecode os Hvalues d v Hd Henc).
  - exact (VirtioVsock_redecode os Hvalues d v Hd Henc (Hport d eq_refl)).
  - exact (USBMassStorage_redecode os Hvalues d v Hd Henc).
Qed.

Lemma decode_encode_decode_witness :
  let dev := OfVirtioNet {| Nat := false;
                            MacAddress := [170; 187; 204; 221; 238; 255]%Z;
                            Socket := Some {| os.Sysfd := 7;
                                              os.name := "vfkit virtio-net socket" |} |} in
  deviceFromCmdLine "virtio-net,,mac=AA-BB-CC-DD-EE-FF,fd=+7" = Returns (Some dev, None)
  /\ ToCmdLine dev = (["--device"; "virtio-net,fd=7,mac=aa:bb:cc:dd:ee:ff"], None)
  /\ deviceFromCmdLine "virtio-net,fd=7,mac=aa:bb:cc:dd:ee:ff"
     = Returns (Some dev, None).
Proof.
  split; [reflexivity|]. split; [reflexivity|].
  apply (decode_encode_decode "virtio-net,,mac=AA-BB-CC-DD-EE-FF,fd=+7").
  - reflexivity.
  - reflexivity.
  - intros d H. discriminate H.
Defined.

(** ** Empty segments *)

Lemma Split_append (a b : string) (sep : ascii) :
  strings.Split (a ++ String sep b) sep
  = (strings.Split a sep ++ strings.Split b sep)%list.
Proof.
  induction a as [|c a IH].
  - cbn [String.append]. rewrite Split_String, Ascii.eqb_refl. reflexivity.
  - cbn [String.append]. rewrite !Split_String, IH.
    destruct (Ascii.eqb c sep); [reflexivity|].
    destruct (Split_nonempty a sep) as [first [rest ->]]. reflexivity.
Qed.

Lemma strvToOptions_range_app (l1 l2 : list string) :
  forall parsedOpts,
  strvToOptions_range parsedOpts (l1 ++ l2)%list
  = (parsed <- strvToOptions_range parsedOpts l1 ;; strvToOptions_range parsed l2).
Proof.
  induction l1 as [|seg l1 IH]; intros acc; cbn [app strvToOptions_range].
  - reflexivity.
  - destruct (String.length seg =? 0)%nat; [apply IH|].
    destruct (strToOption seg) as [o|]; cbn [bind]; [apply IH | reflexivity].
Qed.

Lemma strvToOptions_skips_empty (l1 l2 : list string) :
  strvToOptions (l1 ++ "" :: l2)%list = strvToOptions (l1 ++ l2)%list.
Proof.
  unfold strvToOptions. rewrite !strvToOptions_range_app. reflexivity.
Qed.

Lemma deviceFromCmdLine_same_options (s s' tag : string) (segs segs' : list string) :
  strings.Split s "," = tag :: segs ->
  strings.Split s' "," = tag :: segs' ->
  strvToOptions segs = strvToOptions segs' ->
  deviceFromCmdLine s = deviceFromCmdLine s'.
Proof.
  intros Hs Hs' Hopts.
  destruct (strvToOptions_range_spec segs []) as [os [Hrun _]].
  change (strvToOptions_range [] segs) with (strvToOptions segs) in Hrun.
  rewrite (deviceFromCmdLine_dispatch _ _ _ _ Hs Hrun).
  rewrite Hopts in Hrun.
  rewrite (deviceFromCmdLine_dispatch _ _ _ _ Hs' Hrun).
  reflexivity.
Qed.

(** X10. Empty segments do not count: a spec with a doubled comma
    anywhere decodes (or fails to decode) exactly as the spec with a
    single comma there, and a spec with a trailing comma exactly as the
    spec without it. *)
Theorem empty_segments_are_ignored (a b : string) :
  deviceFromCmdLine (a ++ String "," (String "," b))
  = deviceFromCmdLine (a ++ String "," b)
  /\ deviceFromCmdLine (a ++ ",") = deviceFromCmdLine a.
Proof.
  destruct (Split_nonempty a ",") as [tag [rest Ha]].
  split.
  - apply (deviceFromCmdLine_same_options _ _ tag
             (rest ++ "" :: strings.Split b ",")%list
             (rest ++ strings.Split b ",")%list).
    + rewrite Split_append, Split_String, Ha. reflexivity.
    + rewrite Split_append, Ha. reflexivity.
    + apply strvToOptions_skips_empty.
  - apply (deviceFromCmdLine_same_options _ _ tag (rest ++ [""])%list rest).
    + rewrite Split_append, Ha. reflexivity.
    + exact Ha.
    + rewrite <- (app_nil_r rest) at 2. apply strvToOptions_skips_empty.
Qed.

(** ** What an encoder returns *)

(** X11. Every encoder is all or nothing: for each of the seven devices
    [ToCmdLine] returns either an error and no token, or no error and
    exactly two tokens, the first of which is [--device]. *)
Theorem ToCmdLine_all_or_nothing (dev : VirtioDevice) :
  (exists err, ToCmdLine dev = ([], Some err))
  \/ (exists v, ToCmdLine dev = (["--device"; v], None)).
Proof.
  destruct dev as [d|d|d|d|d|d|d]; cbn [ToCmdLine VirtioDevice_VMComponent
    VirtioBlk_VMComponent VirtioFs_VMComponent VirtioNet_VMComponent
    VirtioRng_VMComponent VirtioSerial_VMComponent VirtioVsock_VMComponent
    USBMassStorage_VMComponent].
  - unfold VirtioBlk_ToCmdLine, StorageConfig_ToCmdLine.
    destruct (String.eqb (ImagePath (BlkStorageConfig d)) "");
      [left; eexists; reflexivity|].
    cbn [List.length Nat.eqb negb nth assign].
    destruct (negb (String.eqb (DeviceIdentifier d) ""));
      right; eexists; reflexivity.
  - unfold VirtioFs_ToCmdLine.
    destruct (String.eqb (SharedDir d) ""); [left; eexists; reflexivity|].
    destruct (negb (String.eqb (MountTag d) "")); right; eexists; reflexivity.
  - unfold VirtioNet_ToCmdLine.
    destruct (validate d); [left | right]; eexists; reflexivity.
  - right. eexists. reflexivity.
  - unfold VirtioSerial_ToCmdLine.
    destruct (String.eqb (LogFile d) ""); [left | right]; eexists; reflexivity.
  - unfold VirtioVsock_ToCmdLine.
    destruct ((Port d =? 0)%Z || String.eqb (SocketURL d) "");
      [left | right]; eexists; reflexivity.
  - unfold USBMassStorage_ToCmdLine, StorageConfig_ToCmdLine.
    destruct (String.eqb (ImagePath (UsbStorageConfig d)) "");
      [left | right]; eexists; reflexivity.
Qed.

Lemma VirtioNet_validated (dev dev' : VirtioNet) (options : list Option) :
  VirtioNet_FromOptions dev options = (dev', None) -> validate dev' = None.
Proof.
  unfold VirtioNet_FromOptions.
  destruct (forRange VirtioNet_case dev options) as [d [err|]]; [discriminate|].
  intros H. injection H as <- Hvalid. exact Hvalid.
Qed.

(** X12. A network device that a decode accepts can be encoded: the
    validation that ends [FromOptions] is the one [ToCmdLine] starts
    with, so a successful decode, from any starting device and through
    the dispatcher, gives a device whose encoding does not fail. *)
Theorem VirtioNet_decoded_encodes :
  (forall dev options dev',
      VirtioNet_FromOptions dev options = (dev', None) ->
      exists v, VirtioNet_ToCmdLine dev' = (["--device"; v], None))
  /\ (forall deviceOpts dev,
        deviceFromCmdLine deviceOpts = Returns (Some (OfVirtioNet dev), None) ->
        exists v, ToCmdLine (OfVirtioNet dev) = (["--device"; v], None)).
Proof.
  assert (Hfirst : forall dev options dev',
             VirtioNet_FromOptions dev options = (dev', None) ->
             exists v, VirtioNet_ToCmdLine dev' = (["--device"; v], None)).
  { intros dev options dev' Hrun.
    unfold VirtioNet_ToCmdLine. rewrite (VirtioNet_validated _ _ _ Hrun).
    eexists. reflexivity. }
  split; [exact Hfirst|].
  intros deviceOpts dev Hdec.
  destruct (deviceFromCmdLine_inv _ _ Hdec)
    as (tag & segs & os & dev0 & _ & _ & Hin & Hrun).
  unfold emptyDevices in Hin. cbn [In] in Hin.
  repeat (destruct Hin as [Hin | Hin]; [injection Hin as <- <- | ]);
    try contradiction;
    cbn [FromOptions VirtioDevice_VMComponent] in Hrun; unfold lift in Hrun;
    try discriminate Hrun.
  match type of Hrun with
  | (_ (fst ?r), snd ?r) = _ => destruct r as [d err] eqn:Hd
  end.
  cbn [fst snd] in Hrun. injection Hrun as -> ->.
  exact (Hfirst _ _ _ Hd).
Qed.

Lemma VirtioNet_decoded_encodes_witness :
  exists v,
    ToCmdLine (OfVirtioNet {| Nat := true; MacAddress := []; Socket := None |})
    = (["--device"; v], None).
Proof.
  apply (proj2 VirtioNet_decoded_encodes "virtio-net,fd=-1,nat").
  reflexivity.
Defined.

(** ** Later options override earlier ones *)

Lemma lastValue_cons (k : string) (o : Option) (options : list Option)
  (default : string) :
  lastValue k (o :: options) default
  = lastValue k options (if String.eqb (key o) k then value o else default).
Proof. reflexivity. Qed.

Lemma lastValue_filter (k k' : string) (options : list Option) :
  k <> k' ->
  forall default,
  lastValue k (filter (fun o => negb (String.eqb (key o) k')) options) default
  = lastValue k options default.
Proof.
  intros Hk. induction options as [|o rest IH]; intros default; [reflexivity|].
  cbn [filter]. rewrite lastValue_cons.
  destruct (String.eqb (key o) k') eqn:Hk'; cbn [negb].
  - apply String.eqb_eq in Hk'.
    replace (String.eqb (key o) k) with false; [apply IH|].
    symmetry. apply String.eqb_neq. congruence.
  - rewrite lastValue_cons. apply IH.
Qed.

Lemma VirtioFs_last_wins (options : list Option) :
  Forall (fun o => known VirtioFs_keys o = true) options ->
  forall dev,
  VirtioFs_FromOptions dev options
  = ({| SharedDir := lastValue "sharedDir" options (SharedDir dev);
        MountTag := lastValue "mountTag" options (MountTag dev) |}, None).
Proof.
  unfold VirtioFs_FromOptions.
  induction 1 as [|o rest Ho Hrest IH]; intros dev.
  - destruct dev. reflexivity.
  - cbn [forRange]. rewrite !lastValue_cons. unfold VirtioFs_case.
    unfold known, VirtioFs_keys in Ho. cbn [existsb] in Ho.
    destruct (String.eqb (key o) "sharedDir") eqn:Hdir.
    + apply String.eqb_eq in Hdir. rewrite IH, Hdir. reflexivity.
    + destruct (String.eqb (key o) "mountTag") eqn:Htag; [|discriminate].
      rewrite IH. reflexivity.
Qed.

Lemma VirtioSerial_last_wins (options : list Option) :
  Forall (fun o => known VirtioSerial_keys o = true) options ->
  forall dev,
  VirtioSerial_FromOptions dev options
  = ({| LogFile := lastValue "logFilePath" options (LogFile dev) |}, None).
Proof.
  unfold VirtioSerial_FromOptions.
  induction 1 as [|o rest Ho Hrest IH]; intros dev.
  - destruct dev. reflexivity.
  - cbn [forRange]. rewrite lastValue_cons. unfold VirtioSerial_case.
    unfold known, VirtioSerial_keys in Ho. cbn [existsb] in Ho.
    destruct (String.eqb (key o) "logFilePath"); [|discriminate].
    rewrite IH. reflexivity.
Qed.

Lemma StorageConfig_last_wins (options : list Option) :
  Forall (fun o => known StorageConfig_keys o = true) options ->
  forall config,
  StorageConfig_FromOptions config options
  = ({| DevName := DevName config;
        ImagePath := lastValue "path" options (ImagePath config);
        ReadOnly := ReadOnly config |}, None).
Proof.
  unfold StorageConfig_FromOptions.
  induction 1 as [|o rest Ho Hrest IH]; intros config.
  - destruct config. reflexivity.
  - cbn [forRange]. rewrite lastValue_cons. unfold StorageConfig_case.
    unfold known, StorageConfig_keys in Ho. cbn [existsb] in Ho.
    destruct (String.eqb (key o) "path"); [|discriminate].
    rewrite IH. reflexivity.
Qed.

Lemma VirtioBlk_loop_last_wins (options : list Option) :
  forall dev unhandledOpts,
  forRange VirtioBlk_case (dev, unhandledOpts) options
  = (({| BlkStorageConfig := BlkStorageConfig dev;
         DeviceIdentifier := lastValue "deviceId" options (DeviceIdentifier dev) |},
      (unhandledOpts
         ++ filter (fun o => negb (String.eqb (key o) "deviceId")) options)%list),
     None).
Proof.
  induction options as [|o rest IH]; intros dev acc.
  - cbn [forRange filter lastValue fold_left]. rewrite app_nil_r.
    destruct dev. reflexivity.
  - cbn [forRange VirtioBlk_case filter]. rewrite lastValue_cons.
    destruct (String.eqb (key o) "deviceId"); cbn [negb]; rewrite IH.
    + reflexivity.
    + rewrite <- app_assoc. reflexivity.
Qed.

(** X13. A decode into a file-sharing or a serial device whose options
    all have known keys succeeds, whatever the values, and leaves in each
    field the value of the last option with that field's key, or what the
    field held when no option has the key. *)
Theorem VirtioFs_decode_takes_last_values (options : list Option) :
  (Forall (fun o => known VirtioFs_keys o = true) options ->
   forall dev,
     VirtioFs_FromOptions dev options
     = ({| SharedDir := lastValue "sharedDir" options (SharedDir dev);
           MountTag := lastValue "mountTag" options (MountTag dev) |}, None))
  /\ (Forall (fun o => known VirtioSerial_keys o = true) options ->
      forall dev,
        VirtioSerial_FromOptions dev options
        = ({| LogFile := lastValue "logFilePath" options (LogFile dev) |}, None)).
Proof.
  split; intros Hknown dev.
  - apply VirtioFs_last_wins. exact Hknown.
  - apply VirtioSerial_last_wins. exact Hknown.
Qed.

Lemma VirtioFs_decode_takes_last_values_witness :
  let options := [ {| key := "mountTag"; value := "a" |};
                   {| key := "sharedDir"; value := "/x" |};
                   {| key := "mountTag"; value := "" |};
                   {| key := "sharedDir"; value := "/y=z" |} ] in
  VirtioFs_FromOptions {| SharedDir := "/old"; MountTag := "old" |} options
  = ({| SharedDir := "/y=z"; MountTag := "" |}, None).
Proof.
  apply (proj1 (VirtioFs_decode_takes_last_values
                  [ {| key := "mountTag"; value := "a" |};
                    {| key := "sharedDir"; value := "/x" |};
                    {| key := "mountTag"; value := "" |};
                    {| key := "sharedDir"; value := "/y=z" |} ])).
  repeat constructor.
Defined.

(** X14. A decode into a block device whose options all have the keys
    [path] or [deviceId] succeeds, whatever the values and however the
    two keys are interleaved: the image path is the value of the last
    [path] option, the device identifier that of the last [deviceId]
    option, each left as it was when its key does not occur, and the
    device name and the read-only flag stay.  The same holds for the
    [path] options of a USB storage device. *)
Theorem VirtioBlk_decode_takes_last_values (options : list Option) :
  (Forall (fun o => known VirtioBlk_keys o = true) options ->
   forall dev,
     VirtioBlk_FromOptions dev options
     = ({| BlkStorageConfig :=
             {| DevName := DevName (BlkStorageConfig dev);
                ImagePath := lastValue "path" options (ImagePath (BlkStorageConfig dev));
                ReadOnly := ReadOnly (BlkStorageConfig dev) |};
           DeviceIdentifier :=
             lastValue "deviceId" options (DeviceIdentifier dev) |}, None))
  /\ (Forall (fun o => known StorageConfig_keys o = true) options ->
      forall dev,
        USBMassStorage_FromOptions dev options
        = ({| UsbStorageConfig :=
                {| DevName := DevName (UsbStorageConfig dev);
                   ImagePath :=
                     lastValue "path" options (ImagePath (UsbStorageConfig dev));
                   ReadOnly := ReadOnly (UsbStorageConfig dev) |} |}, None)).
Proof.
  split; intros Hknown dev.
  - unfold VirtioBlk_FromOptions. rewrite VirtioBlk_loop_last_wins.
    cbn [fst app BlkStorageConfig DeviceIdentifier].
    rewrite StorageConfig_last_wins.
    + rewrite lastValue_filter by discriminate. reflexivity.
    + apply Forall_forall. intros o Hin. apply filter_In in Hin as [Hin Hkey].
      pose proof (Forall_known_In _ _ Hknown o Hin) as Ho.
      unfold known, VirtioBlk_keys, StorageConfig_keys in *. cbn [existsb] in *.
      destruct (String.eqb (key o) "deviceId"); [discriminate | exact Ho].
  - unfold USBMassStorage_FromOptions.
    rewrite (StorageConfig_last_wins _ Hknown). reflexivity.
Qed.

Lemma VirtioBlk_decode_takes_last_values_witness :
  let options := [ {| key := "deviceId"; value := "a" |};
                   {| key := "path"; value := "/one.img" |};
                   {| key := "deviceId"; value := "b" |};
                   {| key := "path"; value := "/two.img" |} ] in
  VirtioBlk_FromOptions virtioBlkNewEmpty options
  = ({| BlkStorageConfig :=
          {| DevName := "virtio-blk"; ImagePath := "/two.img"; ReadOnly := false |};
        DeviceIdentifier := "b" |}, None).
Proof.
  apply (proj1 (VirtioBlk_decode_takes_last_values
                  [ {| key := "deviceId"; value := "a" |};
                    {| key := "path"; value := "/one.img" |};
                    {| key := "deviceId"; value := "b" |};
                    {| key := "path"; value := "/two.img" |} ])).
  repeat constructor.
Defined.
